(** * Trade analysis API: the analyzer and the coach responder

    A shallow embedding of [src/app.py] (the FastAPI application) and of
    [src/functions/trade-analysis.py] (the serverless handler), and the
    properties of [analyze_trades], [generate_coach_response] and of the
    chat endpoints that the specification states.

    Conventions of the embedding.
    - Python [str] values are [string]s whose characters are the code points
      0..255; [strip], [lower], [in], [join] and [split] are written out on
      them.
    - Numbers ([pnl], [win_rate], [avg_profit_loss]) are exact rationals [Q]:
      rounding, underflow and overflow of the floats are outside the
      embedding.  The properties proved are about the lists of a result,
      about comparisons that come out the same on floats (a quotient of two
      counts against one half, the sign of a sum of numbers none of which is
      positive), and about the answers of the endpoints.  The three float
      formatting operations the responder uses are an interface
      ([FloatFormat]).
    - A trade row is a record whose fields are optional: [None] is a key that
      the row does not have; [trade_type] and [notes] hold text and [pnl] a
      number, and on such rows [analyze_trades] returns.  The endpoints keep
      their [except] branches, and what is stated of their answers also
      holds of a run in which the analysis raises and they answer 500.
    - Code that can raise runs in the error monad [exn]; [try]/[except] is
      [try_except]. *)

From Stdlib Require Import List String Ascii Bool Arith Lia.
From Stdlib Require Import ZArith QArith Qround Qabs.
From Stdlib Require Import Sorted Permutation.
From Stdlib Require Import DecimalString.
Import ListNotations.

Close Scope Q_scope.
Open Scope string_scope.
Open Scope list_scope.
Open Scope nat_scope.

(* ================================================================= *)
(** ** Python text primitives *)

Module Py.

(** [str.isspace] on one character, for the code points below 256:
    TAB..CR, FS..US, SPACE, NEL (0x85) and NBSP (0xA0). *)
Definition is_space (c : ascii) : bool :=
  let n := nat_of_ascii c in
  ((9 <=? n) && (n <=? 13)) || ((28 <=? n) && (n <=? 32))
  || (n =? 133) || (n =? 160).

(** [s.lstrip()] *)
Fixpoint lstrip (s : string) : string :=
  match s with
  | String c s' => if is_space c then lstrip s' else s
  | EmptyString => EmptyString
  end.

(** [s.rstrip()] *)
Fixpoint rstrip (s : string) : string :=
  match s with
  | String c s' =>
      match rstrip s' with
      | EmptyString => if is_space c then EmptyString else String c EmptyString
      | r => String c r
      end
  | EmptyString => EmptyString
  end.

(** [s.strip()] *)
Definition strip (s : string) : string := lstrip (rstrip s).

(** [str.lower] on one character of the range 0..255: A..Z and the
    Latin-1 capitals 0xC0..0xDE other than the multiplication sign 0xD7. *)
Definition lower_char (c : ascii) : ascii :=
  let n := nat_of_ascii c in
  if ((65 <=? n) && (n <=? 90))
     || ((192 <=? n) && (n <=? 222) && negb (n =? 215))
  then ascii_of_nat (n + 32) else c.

(** [s.lower()] *)
Fixpoint lower (s : string) : string :=
  match s with
  | String c s' => String (lower_char c) (lower s')
  | EmptyString => EmptyString
  end.

(** [sub in s] *)
Fixpoint contains (sub s : string) : bool :=
  if prefix sub s then true
  else match s with
       | String _ s' => contains sub s'
       | EmptyString => false
       end.

(** [sep.join(parts)] *)
Definition join (sep : string) (parts : list string) : string :=
  String.concat sep parts.

(** [bool(s)] for a string: non-empty. *)
Definition truthy (s : string) : bool :=
  match s with EmptyString => false | String _ _ => true end.

(** Reversal, used by [split] to keep the piece being read. *)
Fixpoint rev_string (acc s : string) : string :=
  match s with
  | String c s' => rev_string (String c acc) s'
  | EmptyString => acc
  end.

(** [s.split(sep)] for a non-empty [sep]: a left-to-right scan that cuts at
    every occurrence found and resumes after it.  [skip] counts the
    characters of a matched separator still to pass, [cur] is the current
    piece, reversed. *)
Fixpoint split_scan (sep : string) (skip : nat) (cur s : string) : list string :=
  match s with
  | EmptyString => [rev_string "" cur]
  | String c s' =>
      match skip with
      | S k => split_scan sep k cur s'
      | O =>
          if prefix sep s
          then rev_string "" cur :: split_scan sep (String.length sep - 1) "" s'
          else split_scan sep 0 (String c cur) s'
      end
  end.

Definition split (sep s : string) : list string := split_scan sep 0 "" s.

(** [parts[-1]] on a list that [split] returned (never empty). *)
Definition last_part (parts : list string) : string := last parts "".

(** [s[:n]] *)
Fixpoint take (n : nat) (s : string) : string :=
  match n, s with
  | S n', String c s' => String c (take n' s')
  | _, _ => EmptyString
  end.

(** [str(n)] for a non-negative [int]. *)
Definition str_of_nat (n : nat) : string :=
  NilZero.string_of_uint (Nat.to_uint n).

(** A [dict] with string keys, as the list of its items in insertion order. *)
Definition dict (V : Type) : Type := list (string * V).

(** [d.get(k, default)] *)
Fixpoint dict_get {V : Type} (d : dict V) (k : string) (default : V) : V :=
  match d with
  | (k', v) :: d' => if String.eqb k' k then v else dict_get d' k default
  | [] => default
  end.

(** [d[k] = v]: an existing key keeps its position, a new key goes last. *)
Fixpoint dict_set {V : Type} (d : dict V) (k : string) (v : V) : dict V :=
  match d with
  | (k', v') :: d' =>
      if String.eqb k' k then (k', v) :: d' else (k', v') :: dict_set d' k v
  | [] => [(k, v)]
  end.

(** [d.keys()] *)
Definition keys {V : Type} (d : dict V) : list string := map fst d.

(** One insertion of the stable descending sort: [x] comes from before every
    element of [l] in the input, so it goes before the first element whose
    key is not greater than its own. *)
Fixpoint insert_desc (key : string -> nat) (x : string) (l : list string)
  : list string :=
  match l with
  | y :: l' =>
      if key x <? key y then y :: insert_desc key x l' else x :: y :: l'
  | [] => [x]
  end.

(** [sorted(l, key=key, reverse=True)]: Python's sort is stable, also with
    [reverse=True] (elements with equal keys keep their input order). *)
Fixpoint sorted_desc (key : string -> nat) (l : list string) : list string :=
  match l with
  | x :: l' => insert_desc key x (sorted_desc key l')
  | [] => []
  end.

(** [a > b] on numbers. *)
Definition gt (a b : Q) : bool := negb (Qle_bool a b).

(** [sum(xs)] over numbers: a left fold from [0], on exact numbers (the
    rounding of a sum of floats is outside the embedding). *)
Definition sum (xs : list Q) : Q := fold_left Qplus xs 0%Q.

(** [sum(1 for ...)]: a left fold from [0] over ones. *)
Definition sum_ones {A : Type} (xs : list A) : nat :=
  fold_left (fun acc _ => acc + 1) xs 0.

(** [len(l)] as a number. *)
Definition len {A : Type} (l : list A) : Q := inject_Z (Z.of_nat (List.length l)).

End Py.

(* ================================================================= *)
(** ** Data model *)

(** A trade row as the store returns it, restricted to the columns the code
    reads ([id], [user_id] and [entry_date] are selected but never used):
    [trade_type] and [notes] are text and [pnl] is a number.  [None] is a
    column that the row does not carry. *)
Record TradeRecord : Type := mkTrade {
  trade_type : option string;
  pnl : option Q;
  notes : option string
}.

(** [trade.get('pnl', 0)] *)
Definition get_pnl (trade : TradeRecord) : Q :=
  match pnl trade with Some x => x | None => 0%Q end.

(** [trade.get('trade_type', '')] *)
Definition get_trade_type (trade : TradeRecord) : string :=
  match trade_type trade with Some s => s | None => "" end.

(** [trade.get('notes', '')] *)
Definition get_notes (trade : TradeRecord) : string :=
  match notes trade with Some s => s | None => "" end.

(** [bool(trade.get('notes'))] *)
Definition has_notes (trade : TradeRecord) : bool :=
  match notes trade with Some s => Py.truthy s | None => false end.

(** [TradeAnalysisResult] of [app.py]; the serverless handler returns a
    [dict] with the same six keys. *)
Record TradeAnalysisResult : Type := mkResult {
  win_rate : Q;
  avg_profit_loss : Q;
  strategies : list string;
  strengths : list string;
  weaknesses : list string;
  suggestions : list string
}.

(** The three float renderings of the responder: [f"{x:.1%}"],
    [f"{x:.2f}"] and [str(round(x * 100, 1))]. *)
Class FloatFormat : Type := {
  format_percent1 : Q -> string;
  format_fixed2 : Q -> string;
  str_round1_percent : Q -> string
}.

(* ================================================================= *)
(** ** Exceptions *)

(** A raised [Exception] with its [str(e)]. *)
Inductive exception : Type := Exc (message : string).

Definition str_exc (e : exception) : string :=
  match e with Exc m => m end.

Inductive exn (A : Type) : Type :=
| Ok (a : A)
| Raise (e : exception).
Arguments Ok {A} a.
Arguments Raise {A} e.

Definition bind {A B : Type} (m : exn A) (k : A -> exn B) : exn B :=
  match m with Ok a => k a | Raise e => Raise e end.

(** [try: body / except Exception as e: handler(e)] *)
Definition try_except {A : Type} (body : exn A) (handler : exception -> exn A)
  : exn A :=
  match body with Ok a => Ok a | Raise e => handler e end.

Notation "x <- m ;; k" := (bind m (fun x => k))
  (at level 61, m at next level, right associativity).

(** One element of the list a text-generation pipeline returns: a [dict]
    that may lack the key ['generated_text'], or hold something that is not
    a [str] under it. *)
Inductive generated : Type :=
| NoKey
| NotText
| Text (generated_text : string).

(** The pipeline: called with the prompt, [max_length] and
    [num_return_sequences]; it returns the sequences or raises. *)
Definition pipeline : Type := string -> nat -> nat -> exn (list generated).

(** [sequences[0]] *)
Definition first_sequence (sequences : list generated) : exn generated :=
  match sequences with
  | g :: _ => Ok g
  | [] => Raise (Exc "list index out of range")
  end.

(** [g['generated_text']] followed by a [str] method call on it. *)
Definition generated_text_of (g : generated) : exn string :=
  match g with
  | Text s => Ok s
  | NoKey => Raise (Exc "'generated_text'")
  | NotText => Raise (Exc "object has no attribute 'split'")
  end.

Definition advice_marker : string := "Your helpful advice:".

(** [generated_text.split("Your helpful advice:")[-1].strip()] *)
Definition advice_part (generated_text : string) : string :=
  Py.strip (Py.last_part (Py.split advice_marker generated_text)).

(** The trade store behind the client: the rows of a user (newest first, at
    most 100), or an exception. *)
Definition Store : Type := string -> exn (list TradeRecord).

(** What an endpoint answers. *)
Inductive Body : Type :=
| ErrorBody (error : string)
| DetailBody (detail : string)
| ResponseBody (response : string)
| ChatBody (response : string) (analysis : TradeAnalysisResult)
| AnalysisBody (analysis : TradeAnalysisResult).

Record HttpResponse : Type := mkHttp { status : nat; body : Body }.

(** [trades[i] for i in indices], for indices within range. *)
Definition select {A : Type} (l : list A) (indices : list nat) : list A :=
  flat_map (fun i => match nth_error l i with Some x => [x] | None => [] end)
           indices.

Notation "a ^^ b" := (String.append a b) (at level 60, right associativity).

Definition newline : string := String (ascii_of_nat 10) "".
Definition dquote : string := String (ascii_of_nat 34) "".

(** [', '.join(items) if items else fallback] *)
Definition join_or (items : list string) (fallback : string) : string :=
  match items with
  | [] => fallback
  | _ :: _ => Py.join ", " items
  end.

(** [bool(l)] for a list. *)
Definition nonempty {A : Type} (l : list A) : bool :=
  match l with [] => false | _ :: _ => true end.

(* ================================================================= *)
(** ** [src/app.py] *)

Module App.

(** [sampled_trades] of [analyze_trades] (lines 123-124): the whole list up
    to 50 rows, else the rows at the indices that
    [np.random.choice(len(trades), sample_size, replace=False)] draws;
    [choice] is that draw. *)
Definition sampled_trades (choice : nat -> nat -> list nat)
    (trades : list TradeRecord) : list TradeRecord :=
  let sample_size := Nat.min 50 (List.length trades) in
  if List.length trades <=? sample_size
  then firstn sample_size trades
  else select trades (choice (List.length trades) sample_size).

Definition analyze_trades (choice : nat -> nat -> list nat)
    (trades : list TradeRecord) : TradeAnalysisResult :=
  if negb (nonempty trades) then
    mkResult 0 0 [] [] []
      ["Start recording your trades to get personalized analysis."]
  else
  (* Calculate win rate *)
  let profitable_trades :=
    Py.sum_ones (filter (fun trade => Py.gt (get_pnl trade) 0) trades) in
  let win_rate :=
    if nonempty trades
    then (inject_Z (Z.of_nat profitable_trades) / Py.len trades)%Q else 0%Q in
  (* Calculate average profit/loss *)
  let total_pnl := Py.sum (map get_pnl trades) in
  let avg_pnl := if nonempty trades then (total_pnl / Py.len trades)%Q else 0%Q in
  (* Extract unique strategies - limit to top 5 *)
  let strategies_count :=
    fold_left
      (fun (strategies_count : Py.dict nat) trade =>
         let strategy := Py.strip (get_trade_type trade) in
         if Py.truthy strategy
         then Py.dict_set strategies_count strategy
                (Py.dict_get strategies_count strategy 0 + 1)
         else strategies_count)
      trades [] in
  (* Get most common strategies first *)
  let strategies :=
    firstn 5 (Py.sorted_desc (fun s => Py.dict_get strategies_count s 0)
                             (Py.keys strategies_count)) in
  let strengths : list string := [] in
  let weaknesses : list string := [] in
  let suggestions : list string := [] in
  (* Basic analysis rules *)
  let '(strengths, weaknesses, suggestions) :=
    if Py.gt win_rate (1 # 2)
    then (strengths ++ ["Above 50% win rate"], weaknesses, suggestions)
    else (strengths, weaknesses ++ ["Below 50% win rate"],
          suggestions
            ++ ["Focus on improving your win rate by reviewing losing trades"])
  in
  let '(strengths, weaknesses, suggestions) :=
    if Py.gt avg_pnl 0
    then (strengths ++ ["Positive average P&L"], weaknesses, suggestions)
    else (strengths, weaknesses ++ ["Negative average P&L"],
          suggestions ++ ["Work on improving your average profit per trade"])
  in
  let '(strengths, suggestions) :=
    if 2 <? List.length strategies
    then (strengths
            ++ ["Diverse trading approaches ("
                ^^ Py.str_of_nat (List.length strategies)
                ^^ " different strategies)"],
          suggestions)
    else (strengths,
          suggestions
            ++ ["Consider exploring more trading strategies to diversify your approach"])
  in
  (* Look for patterns in notes *)
  let sampled := sampled_trades choice trades in
  let all_notes := Py.join " " (map get_notes (filter has_notes sampled)) in
  let '(strengths, weaknesses, suggestions) :=
    if Py.truthy all_notes then
      let '(weaknesses, suggestions) :=
        if Py.contains "emotion" (Py.lower all_notes)
           || Py.contains "fear" (Py.lower all_notes)
           || Py.contains "greed" (Py.lower all_notes)
        then (weaknesses ++ ["Emotional trading noted in multiple trades"],
              suggestions ++ ["Work on emotional discipline during trading"])
        else (weaknesses, suggestions) in
      let strengths :=
        if Py.contains "plan" (Py.lower all_notes)
        then strengths ++ ["Evidence of trade planning in notes"]
        else strengths in
      (strengths, weaknesses, suggestions)
    else (strengths, weaknesses, suggestions)
  in
  mkResult win_rate avg_pnl
    (firstn 5 strategies) (firstn 3 strengths)
    (firstn 3 weaknesses) (firstn 3 suggestions).

Definition model_unavailable : string :=
  "I'm having trouble analyzing your trades right now. Please try again later.".

Definition short_generation_fallback : string :=
  "Based on your trading performance, I recommend focusing on consistency and keeping detailed trade notes to identify patterns.".

Definition prompt `{FloatFormat} (user_message : string)
    (trade_analysis : TradeAnalysisResult) : string :=
  newline
  ^^ "You are a professional trading coach giving advice to a trader." ^^ newline
  ^^ "The trader's performance:" ^^ newline
  ^^ "- Win rate: " ^^ format_percent1 (win_rate trade_analysis) ^^ newline
  ^^ "- Average P&L: $" ^^ format_fixed2 (avg_profit_loss trade_analysis) ^^ newline
  ^^ "- Strategies used: "
  ^^ join_or (strategies trade_analysis) "None recorded" ^^ newline
  ^^ "- Strengths: " ^^ join_or (strengths trade_analysis) "None identified" ^^ newline
  ^^ "- Weaknesses: "
  ^^ join_or (weaknesses trade_analysis) "None identified" ^^ newline
  ^^ newline
  ^^ "The trader asks: " ^^ dquote ^^ user_message ^^ dquote ^^ newline
  ^^ newline
  ^^ "Your helpful advice:" ^^ newline.

(** [generator] is the module-level pipeline, [None] when loading the model
    failed. *)
Definition generate_coach_response `{FloatFormat} (generator : option pipeline)
    (user_message : string) (trade_analysis : TradeAnalysisResult) : exn string :=
  let prompt := prompt user_message trade_analysis in
  try_except
    (match generator with
     | None => Ok model_unavailable
     | Some generator =>
         sequences <- generator prompt 150 1 ;;
         first <- first_sequence sequences ;;
         generated_text <- generated_text_of first ;;
         let advice_part := advice_part generated_text in
         if negb (Py.truthy advice_part) || (String.length advice_part <? 10)
         then Ok short_generation_fallback
         else Ok advice_part
     end)
    (fun e => Ok model_unavailable).

(** The size limits of [get_trade_analysis] (lines 194-202). *)
Definition limit_analysis (analysis : TradeAnalysisResult) : TradeAnalysisResult :=
  let strategies' :=
    if 5 <? List.length (strategies analysis)
    then firstn 5 (strategies analysis) else strategies analysis in
  let strengths' :=
    if 3 <? List.length (strengths analysis)
    then firstn 3 (strengths analysis) else strengths analysis in
  let weaknesses' :=
    if 3 <? List.length (weaknesses analysis)
    then firstn 3 (weaknesses analysis) else weaknesses analysis in
  let suggestions' :=
    if 3 <? List.length (suggestions analysis)
    then firstn 3 (suggestions analysis) else suggestions analysis in
  mkResult (win_rate analysis) (avg_profit_loss analysis)
    strategies' strengths' weaknesses' suggestions'.

(** [supabase] is what [Depends(get_supabase_client)] provides: [None] when
    the credentials are missing (the dependency raises a 500). *)
Definition get_trade_analysis (supabase : option Store)
    (choice : nat -> nat -> list nat) (user_id : string) : HttpResponse :=
  match supabase with
  | None => mkHttp 500 (DetailBody "Missing Supabase credentials")
  | Some store =>
      match (trades <- store user_id ;;
             Ok (limit_analysis (analyze_trades choice trades))) with
      | Ok analysis => mkHttp 200 (AnalysisBody analysis)
      | Raise e => mkHttp 500 (DetailBody ("Error analyzing trades: " ^^ str_exc e))
      end
  end.

Record Message : Type := mkMessage { role : string; content : string }.

Record ChatRequest : Type := mkChatRequest {
  messages : list Message;
  user_id : string
}.

(** The last user message of [chat] (lines 213-217). *)
Definition last_user_message (messages : list Message) : option string :=
  match find (fun msg => String.eqb (role msg) "user") (rev messages) with
  | Some msg => Some (content msg)
  | None => None
  end.

Definition chat `{FloatFormat} (supabase : option Store)
    (generator : option pipeline) (choice : nat -> nat -> list nat)
    (request : ChatRequest) : HttpResponse :=
  match supabase with
  | None => mkHttp 500 (DetailBody "Missing Supabase credentials")
  | Some store =>
      let run : exn HttpResponse :=
        match last_user_message (messages request) with
        | None | Some EmptyString =>
            Ok (mkHttp 200
                  (ResponseBody "I didn't receive a message to respond to."))
        | Some last_message =>
            trades <- store (user_id request) ;;
            let analysis := analyze_trades choice trades in
            coach_response <- generate_coach_response generator last_message analysis ;;
            let coach_response :=
              if 1000 <? String.length coach_response
              then Py.take 1000 coach_response ^^ "... [response truncated]"
              else coach_response in
            Ok (mkHttp 200 (ChatBody coach_response (limit_analysis analysis)))
        end in
      match run with
      | Ok response => response
      | Raise e => mkHttp 500 (DetailBody ("Error processing chat: " ^^ str_exc e))
      end
  end.

End App.

(* ================================================================= *)
(** ** [src/functions/trade-analysis.py] *)

Module Fn.

(** [sampled_trades] of [analyze_trades] (lines 80-81): the first
    [min(50, len(trades))] rows. *)
Definition sampled_trades (trades : list TradeRecord) : list TradeRecord :=
  let sample_size := Nat.min 50 (List.length trades) in
  firstn sample_size trades.

Definition analyze_trades (trades : list TradeRecord) : TradeAnalysisResult :=
  if negb (nonempty trades) then
    mkResult 0 0 [] [] []
      ["Start recording your trades to get personalized analysis."]
  else
  (* Calculate win rate *)
  let profitable_trades :=
    Py.sum_ones (filter (fun trade => Py.gt (get_pnl trade) 0) trades) in
  let win_rate :=
    if nonempty trades
    then (inject_Z (Z.of_nat profitable_trades) / Py.len trades)%Q else 0%Q in
  (* Calculate average profit/loss *)
  let total_pnl := Py.sum (map get_pnl trades) in
  let avg_pnl := if nonempty trades then (total_pnl / Py.len trades)%Q else 0%Q in
  (* Extract unique strategies - limit to top 5 *)
  let strategies_count :=
    fold_left
      (fun (strategies_count : Py.dict nat) trade =>
         let strategy := Py.strip (get_trade_type trade) in
         if Py.truthy strategy
         then Py.dict_set strategies_count strategy
                (Py.dict_get strategies_count strategy 0 + 1)
         else strategies_count)
      trades [] in
  (* Get most common strategies first *)
  let strategies :=
    firstn 5 (Py.sorted_desc (fun s => Py.dict_get strategies_count s 0)
                             (Py.keys strategies_count)) in
  let strengths : list string := [] in
  let weaknesses : list string := [] in
  let suggestions : list string := [] in
  (* Basic analysis rules *)
  let '(strengths, weaknesses, suggestions) :=
    if Py.gt win_rate (1 # 2)
    then (strengths ++ ["Above 50% win rate"], weaknesses, suggestions)
    else (strengths, weaknesses ++ ["Below 50% win rate"],
          suggestions
            ++ ["Focus on improving your win rate by reviewing losing trades"])
  in
  let '(strengths, weaknesses, suggestions) :=
    if Py.gt avg_pnl 0
    then (strengths ++ ["Positive average P&L"], weaknesses, suggestions)
    else (strengths, weaknesses ++ ["Negative average P&L"],
          suggestions ++ ["Work on improving your average profit per trade"])
  in
  let '(strengths, suggestions) :=
    if 2 <? List.length strategies
    then (strengths
            ++ ["Diverse trading approaches ("
                ^^ Py.str_of_nat (List.length strategies)
                ^^ " different strategies)"],
          suggestions)
    else (strengths,
          suggestions
            ++ ["Consider exploring more trading strategies to diversify your approach"])
  in
  (* Look for patterns in notes *)
  let sampled := sampled_trades trades in
  let all_notes := Py.join " " (map get_notes (filter has_notes sampled)) in
  let '(strengths, weaknesses, suggestions) :=
    if Py.truthy all_notes then
      let '(weaknesses, suggestions) :=
        if Py.contains "emotion" (Py.lower all_notes)
           || Py.contains "fear" (Py.lower all_notes)
           || Py.contains "greed" (Py.lower all_notes)
        then (weaknesses ++ ["Emotional trading noted in multiple trades"],
              suggestions ++ ["Work on emotional discipline during trading"])
        else (weaknesses, suggestions) in
      let strengths :=
        if Py.contains "plan" (Py.lower all_notes)
        then strengths ++ ["Evidence of trade planning in notes"]
        else strengths in
      (strengths, weaknesses, suggestions)
    else (strengths, weaknesses, suggestions)
  in
  mkResult win_rate avg_pnl
    (firstn 5 strategies) (firstn 3 strengths)
    (firstn 3 weaknesses) (firstn 3 suggestions).

Definition prompt `{FloatFormat} (user_message : string)
    (trade_analysis : TradeAnalysisResult) : string :=
  let win_rate_percent := str_round1_percent (win_rate trade_analysis) in
  let avg_pnl := avg_profit_loss trade_analysis in
  let strategies := join_or (strategies trade_analysis) "None recorded" in
  let strengths := join_or (strengths trade_analysis) "None identified" in
  let weaknesses := join_or (weaknesses trade_analysis) "None identified" in
  newline
  ^^ "As a professional trading coach, give advice to a trader with:" ^^ newline
  ^^ "- Win rate: " ^^ win_rate_percent ^^ "%" ^^ newline
  ^^ "- Average P&L: $" ^^ format_fixed2 avg_pnl ^^ newline
  ^^ "- Strategies: " ^^ strategies ^^ newline
  ^^ "- Strengths: " ^^ strengths ^^ newline
  ^^ "- Weaknesses: " ^^ weaknesses ^^ newline
  ^^ newline
  ^^ "The trader asks: " ^^ dquote ^^ user_message ^^ dquote ^^ newline
  ^^ newline
  ^^ "Your helpful advice:".

(** The template path of [generate_coach_response] (lines 141-169): the
    [responses] dict in insertion order, and the first key found in the
    lower-cased message. *)
Definition template_response `{FloatFormat} (user_message : string)
    (trade_analysis : TradeAnalysisResult) : string :=
  let win_rate_percent := str_round1_percent (win_rate trade_analysis) in
  let avg_pnl := avg_profit_loss trade_analysis in
  let responses : Py.dict string :=
    [ ("how am i doing",
       "Based on your trading metrics, you have a " ^^ win_rate_percent
       ^^ "% win rate with an average P&L of $" ^^ format_fixed2 avg_pnl ^^ ". "
       ^^ (if Py.gt avg_pnl 0
           then "Your consistent positive results show good trading discipline. "
           else "Focus on improving your risk management to achieve positive results. "));
      ("what should i improve",
       "Based on your trading data, I recommend: "
       ^^ join_or (suggestions trade_analysis)
            "Keeping detailed notes on each trade to identify patterns.");
      ("what are my strengths",
       "Your trading strengths include: "
       ^^ join_or (strengths trade_analysis)
            "Not enough data to determine specific strengths yet.");
      ("what are my weaknesses",
       "Areas for improvement include: "
       ^^ join_or (weaknesses trade_analysis)
            "Not enough data to determine specific weaknesses yet.") ] in
  let default_response :=
    "Based on your trading history with a " ^^ win_rate_percent
    ^^ "% win rate and $" ^^ format_fixed2 avg_pnl ^^ " average P&L, "
    ^^ "I recommend focusing on consistency and keeping detailed trade notes." in
  match find (fun item => Py.contains (fst item) (Py.lower user_message))
             responses with
  | Some (_, response) => response
  | None => default_response
  end.

(** The generation attempt (lines 104-139): [Some r] when the function
    returns [r] from inside the [try], [None] when control reaches the
    template path. *)
Definition generated_response `{FloatFormat} (HAS_TRANSFORMERS : bool)
    (generator : option pipeline) (user_message : string)
    (trade_analysis : TradeAnalysisResult) : exn (option string) :=
  match HAS_TRANSFORMERS, generator with
  | true, Some generator =>
      try_except
        (let prompt := prompt user_message trade_analysis in
         sequences <- generator prompt 150 1 ;;
         first <- first_sequence sequences ;;
         generated_text <- generated_text_of first ;;
         let advice_part := advice_part generated_text in
         if Py.truthy advice_part && (10 <=? String.length advice_part)
         then Ok (Some (Py.take 500 advice_part))
         else Ok None)
        (fun e => Ok None)
  | _, _ => Ok None
  end.

Definition generate_coach_response `{FloatFormat} (HAS_TRANSFORMERS : bool)
    (generator : option pipeline) (user_message : string)
    (trade_analysis : TradeAnalysisResult) : exn string :=
  returned <- generated_response HAS_TRANSFORMERS generator
                user_message trade_analysis ;;
  match returned with
  | Some response => Ok response
  | None => Ok (template_response user_message trade_analysis)
  end.

(** [supabase] is [None] when the credentials are missing. *)
Definition query_supabase (supabase : option Store) (user_id : string)
  : string + list TradeRecord :=
  match supabase with
  | None => inl "Missing Supabase credentials"
  | Some store =>
      match store user_id with
      | Ok data => inr data
      | Raise e => inl (str_exc e)
      end
  end.

(** One element of [messages]: a [dict] read with [get]. *)
Record Message : Type := mkMessage {
  role : option string;
  content : option string
}.

(** The decoded request body. *)
Record RequestData : Type := mkRequestData {
  user_id : option string;
  messages : list Message
}.

Definition is_user (msg : Message) : bool :=
  match role msg with Some r => String.eqb r "user" | None => false end.

(** The last user message of [do_POST] (lines 244-248). *)
Definition last_user_message (messages : list Message) : option string :=
  match find is_user (rev messages) with
  | Some msg => content msg
  | None => None
  end.

Definition do_POST `{FloatFormat} (HAS_TRANSFORMERS : bool)
    (generator : option pipeline) (supabase : option Store)
    (request_data : RequestData) : HttpResponse :=
  let run : exn HttpResponse :=
    match user_id request_data with
    | None | Some EmptyString => Ok (mkHttp 400 (ErrorBody "Missing user_id"))
    | Some user_id =>
        match last_user_message (messages request_data) with
        | None | Some EmptyString =>
            Ok (mkHttp 400 (ErrorBody "No user message found"))
        | Some last_message =>
            match query_supabase supabase user_id with
            | inl error => Ok (mkHttp 500 (ErrorBody error))
            | inr trades =>
                let analysis := analyze_trades trades in
                coach_response <-
                  generate_coach_response HAS_TRANSFORMERS generator
                    last_message analysis ;;
                Ok (mkHttp 200 (ChatBody coach_response analysis))
            end
        end
    end in
  match run with
  | Ok response => response
  | Raise e => mkHttp 500 (ErrorBody (str_exc e))
  end.

(** [do_GET] (lines 188-225).  [user_id] is the first value of the query
    parameter [user_id] as [parse_qs] returns it, [None] when the path has no
    such parameter (the default [['']] then gives the empty string). *)
Definition do_GET (supabase : option Store) (user_id : option string)
  : HttpResponse :=
  let run : exn HttpResponse :=
    let user_id := match user_id with Some u => u | None => "" end in
    if negb (Py.truthy user_id)
    then Ok (mkHttp 400 (ErrorBody "Missing user_id parameter"))
    else
      match query_supabase supabase user_id with
      | inl error => Ok (mkHttp 500 (ErrorBody error))
      | inr trades => Ok (mkHttp 200 (AnalysisBody (analyze_trades trades)))
      end in
  match run with
  | Ok response => response
  | Raise e => mkHttp 500 (ErrorBody (str_exc e))
  end.

End Fn.

(* ================================================================= *)
(** ** Vocabulary of the properties *)

(** The whitespace-trimmed, non-empty [trade_type] labels in input order. *)
Definition labels (trades : list TradeRecord) : list string :=
  filter Py.truthy (map (fun trade => Py.strip (get_trade_type trade)) trades).

(** Size of the group of label [s]. *)
Definition group_size (ls : list string) (s : string) : nat :=
  count_occ string_dec ls s.

(** Position of the first appearance of [s] ([length ls] when absent). *)
Fixpoint first_index (ls : list string) (s : string) : nat :=
  match ls with
  | x :: ls' => if string_dec x s then 0 else S (first_index ls' s)
  | [] => 0
  end.

(** [a] is ranked before [b]: a strictly larger group, or an equal one and
    an earlier first appearance. *)
Definition ranks_before (ls : list string) (a b : string) : Prop :=
  group_size ls b < group_size ls a
  \/ (group_size ls a = group_size ls b /\ first_index ls a < first_index ls b).

(** Number of distinct labels. *)
Definition distinct_count (trades : list TradeRecord) : nat :=
  List.length (nodup string_dec (labels trades)).

Definition diverse_message (count : nat) : string :=
  "Diverse trading approaches (" ^^ Py.str_of_nat count ^^ " different strategies)".

(** Number of rows with [pnl > 0]. *)
Fixpoint wins (trades : list TradeRecord) : nat :=
  match trades with
  | trade :: rest =>
      (if Qlt_le_dec 0 (get_pnl trade) then 1 else 0) + wins rest
  | [] => 0
  end.

(** Sum of [pnl] over the rows. *)
Fixpoint pnl_total (trades : list TradeRecord) : Q :=
  match trades with
  | trade :: rest => (get_pnl trade + pnl_total rest)%Q
  | [] => 0%Q
  end.

Definition count_of (n : nat) : Q := inject_Z (Z.of_nat n).

Definition fear_phrase : string := "I felt fear during this trade".

(** The degenerate result for no trades. *)
Definition empty_analysis : TradeAnalysisResult :=
  mkResult 0 0 [] [] []
    ["Start recording your trades to get personalized analysis."].

(** The four caps. *)
Definition within_caps (r : TradeAnalysisResult) : Prop :=
  List.length (strategies r) <= 5 /\ List.length (strengths r) <= 3
  /\ List.length (weaknesses r) <= 3 /\ List.length (suggestions r) <= 3.

(** Prefix truncation of the four lists to the caps, unconditionally. *)
Definition truncate_to_caps (r : TradeAnalysisResult) : TradeAnalysisResult :=
  mkResult (win_rate r) (avg_profit_loss r)
    (firstn 5 (strategies r)) (firstn 3 (strengths r))
    (firstn 3 (weaknesses r)) (firstn 3 (suggestions r)).

(** The ranking, over the labels as the code computes them. *)
Definition strategies_ranked (trades : list TradeRecord) (r : TradeAnalysisResult)
  : Prop :=
  exists ranked,
    strategies r = firstn 5 ranked
    /\ NoDup ranked
    /\ (forall s, In s ranked <-> In s (labels trades))
    /\ StronglySorted (ranks_before (labels trades)) ranked.

(** *** The common shape of the two analyzers

    Both [analyze_trades] run the same statements on the trades and differ
    in the notes sample only; [analysis_of] is that body with the sample as
    an argument, cut into its steps. *)

Definition win_rate_of (trades : list TradeRecord) : Q :=
  (inject_Z (Z.of_nat
     (Py.sum_ones (filter (fun trade => Py.gt (get_pnl trade) 0) trades)))
   / Py.len trades)%Q.

Definition avg_pnl_of (trades : list TradeRecord) : Q :=
  (Py.sum (map get_pnl trades) / Py.len trades)%Q.

Definition count_step (strategies_count : Py.dict nat) (trade : TradeRecord)
  : Py.dict nat :=
  let strategy := Py.strip (get_trade_type trade) in
  if Py.truthy strategy
  then Py.dict_set strategies_count strategy
         (Py.dict_get strategies_count strategy 0 + 1)
  else strategies_count.

Definition strategies_count_of (trades : list TradeRecord) : Py.dict nat :=
  fold_left count_step trades [].

Definition strategies_of (trades : list TradeRecord) : list string :=
  firstn 5 (Py.sorted_desc (fun s => Py.dict_get (strategies_count_of trades) s 0)
                           (Py.keys (strategies_count_of trades))).

Definition all_notes_of (sampled : list TradeRecord) : string :=
  Py.join " " (map get_notes (filter has_notes sampled)).

Definition emotional (all_notes : string) : bool :=
  Py.truthy all_notes
  && (Py.contains "emotion" (Py.lower all_notes)
      || Py.contains "fear" (Py.lower all_notes)
      || Py.contains "greed" (Py.lower all_notes)).

Definition planned (all_notes : string) : bool :=
  Py.truthy all_notes && Py.contains "plan" (Py.lower all_notes).

Definition when {A : Type} (b : bool) (x : A) : list A := if b then [x] else [].

Definition strengths_of (win_rate avg_pnl : Q) (n : nat) (all_notes : string)
  : list string :=
  when (Py.gt win_rate (1 # 2)) "Above 50% win rate"
  ++ when (Py.gt avg_pnl 0) "Positive average P&L"
  ++ when (2 <? n) (diverse_message n)
  ++ when (planned all_notes) "Evidence of trade planning in notes".

Definition weaknesses_of (win_rate avg_pnl : Q) (all_notes : string)
  : list string :=
  when (negb (Py.gt win_rate (1 # 2))) "Below 50% win rate"
  ++ when (negb (Py.gt avg_pnl 0)) "Negative average P&L"
  ++ when (emotional all_notes) "Emotional trading noted in multiple trades".

Definition suggestions_of (win_rate avg_pnl : Q) (n : nat) (all_notes : string)
  : list string :=
  when (negb (Py.gt win_rate (1 # 2)))
    "Focus on improving your win rate by reviewing losing trades"
  ++ when (negb (Py.gt avg_pnl 0))
       "Work on improving your average profit per trade"
  ++ when (negb (2 <? n))
       "Consider exploring more trading strategies to diversify your approach"
  ++ when (emotional all_notes) "Work on emotional discipline during trading".

Definition analysis_of (sampled trades : list TradeRecord) : TradeAnalysisResult :=
  match trades with
  | [] => empty_analysis
  | _ :: _ =>
      let n := List.length (strategies_of trades) in
      let all_notes := all_notes_of sampled in
      mkResult (win_rate_of trades) (avg_pnl_of trades)
        (firstn 5 (strategies_of trades))
        (firstn 3 (strengths_of (win_rate_of trades) (avg_pnl_of trades) n all_notes))
        (firstn 3 (weaknesses_of (win_rate_of trades) (avg_pnl_of trades) all_notes))
        (firstn 3 (suggestions_of (win_rate_of trades) (avg_pnl_of trades) n all_notes))
  end.

(** *** A concrete float rendering, for examples

    Exact decimal rendering of a rational with [k] digits after the point,
    ties to even. *)

Definition round_half_even (q : Q) : Z :=
  let f := Qfloor q in
  match Qcompare (q - inject_Z f) (1 # 2) with
  | Lt => f
  | Gt => (f + 1)%Z
  | Eq => if Z.even f then f else (f + 1)%Z
  end.

Fixpoint pad_zeros (k : nat) (s : string) : string :=
  match k - String.length s with
  | 0 => s
  | S _ => match k with
           | S k' => "0" ^^ pad_zeros k' s
           | 0 => s
           end
  end.

Definition decimal (k : nat) (q : Q) : string :=
  let scale := (10 ^ Z.of_nat k)%Z in
  let m := round_half_even (Qabs q * inject_Z scale) in
  (if Qlt_le_dec q 0 then "-" else "")
  ^^ Py.str_of_nat (Z.to_nat (m / scale)) ^^ "."
  ^^ pad_zeros k (Py.str_of_nat (Z.to_nat (m mod scale))).

Definition decimal_format : FloatFormat := {|
  format_percent1 := fun x => decimal 1 (x * 100) ^^ "%";
  format_fixed2 := decimal 2;
  str_round1_percent := fun x => decimal 1 (x * 100)
|}.

(** [strategies_count[strategy] = strategies_count.get(strategy, 0) + 1] *)
Definition bump (d : Py.dict nat) (s : string) : Py.dict nat :=
  Py.dict_set d s (Py.dict_get d s 0 + 1).

(** The dictionary after the labels [ls] have been counted. *)
Record counted (ls : list string) (d : Py.dict nat) : Prop := {
  counted_nodup : NoDup (Py.keys d);
  counted_keys : forall s, In s (Py.keys d) <-> In s ls;
  counted_size : forall s, Py.dict_get d s 0 = group_size ls s;
  counted_order :
    StronglySorted (fun a b => first_index ls a < first_index ls b) (Py.keys d)
}.

(** The order of a stable descending sort: a larger key first, and for equal
    keys the input order [earlier]. *)
Definition sorted_order (key : string -> nat)
    (earlier : string -> string -> Prop) (a b : string) : Prop :=
  key b < key a \/ (key a = key b /\ earlier a b).

(** The full ranking before the cut to five. *)
Definition ranking (trades : list TradeRecord) : list string :=
  Py.sorted_desc (fun s => Py.dict_get (strategies_count_of trades) s 0)
    (Py.keys (strategies_count_of trades)).

Definition mentions_fear (trade : TradeRecord) : Prop :=
  Py.contains fear_phrase (get_notes trade) = true.

Definition losing (trades : list TradeRecord) : Prop :=
  Forall (fun trade => (get_pnl trade <= 0)%Q) trades.

Definition fear_findings (trades : list TradeRecord) (r : TradeAnalysisResult)
  : Prop :=
  weaknesses r
  = ["Below 50% win rate"; "Negative average P&L";
     "Emotional trading noted in multiple trades"]
  /\ (In "Work on emotional discipline during trading" (suggestions r)
      <-> 2 < distinct_count trades).

(** A backend that fails in [pipeline] terms. *)
Definition backend_fails (generator : option pipeline) (prompt : string)
  : Prop :=
  match generator with
  | None => True
  | Some g =>
      match g prompt 150 1 with
      | Raise _ | Ok [] | Ok (NoKey :: _) | Ok (NotText :: _) => True
      | Ok (Text _ :: _) => False
      end
  end.

(** *** The labels, read off the rows

    What a row contributes to the strategies, stated on the text of its
    [trade_type] alone. *)

(** White space only. *)
Fixpoint blank (s : string) : bool :=
  match s with
  | String c s' => Py.is_space c && blank s'
  | EmptyString => true
  end.

(** No white space at the start and none at the end. *)
Definition clean_ends (s : string) : Prop :=
  (forall c rest, s = String c rest -> Py.is_space c = false)
  /\ (forall front c, s = front ^^ String c "" -> Py.is_space c = false).

(** [label] is [raw] without its leading and its trailing white space. *)
Definition trimmed_of (raw label : string) : Prop :=
  exists lead trail,
    raw = lead ^^ label ^^ trail
    /\ blank lead = true /\ blank trail = true /\ clean_ends label.

(** The label a row contributes: none when the row has no [trade_type] or
    one of white space only, else the trimmed text. *)
Definition contributes (trade : TradeRecord) (label : option string) : Prop :=
  match trade_type trade with
  | None => label = None
  | Some raw =>
      exists s, trimmed_of raw s
                /\ label = (if String.eqb s "" then None else Some s)
  end.

(** The labels that are there, in order. *)
Definition present (contributed : list (option string)) : list string :=
  flat_map (fun label => match label with Some s => [s] | None => [] end)
           contributed.

(** What the claim on [strategies] asks of a result: the first five of the
    ranking of the labels that the rows contribute. *)
Definition strategies_from_rows (trades : list TradeRecord)
    (r : TradeAnalysisResult) : Prop :=
  exists contributed ranked,
    Forall2 contributes trades contributed
    /\ strategies r = firstn 5 ranked
    /\ NoDup ranked
    /\ (forall s, In s ranked <-> In s (present contributed))
    /\ StronglySorted (ranks_before (present contributed)) ranked.

(** *** Vocabulary of the further properties *)

(** [s] without its first [n] characters. *)
Fixpoint drop (n : nat) (s : string) : string :=
  match n, s with
  | S n', String _ s' => drop n' s'
  | _, _ => s
  end.

(** [sub] occurs in [s], as a decomposition of [s]. *)
Definition substring_of (sub s : string) : Prop :=
  exists p q, s = p ^^ sub ^^ q.

(** The row with its notes replaced. *)
Definition with_notes (new_notes : TradeRecord -> option string)
    (trade : TradeRecord) : TradeRecord :=
  mkTrade (trade_type trade) (pnl trade) (new_notes trade).

(** The reply text of a chat answer, if the body carries one. *)
Definition reply_of (r : HttpResponse) : option string :=
  match body r with
  | ChatBody response _ | ResponseBody response => Some response
  | _ => None
  end.

(** The analysis of an answer, if the body carries one. *)
Definition analysis_in (r : HttpResponse) : option TradeAnalysisResult :=
  match body r with
  | ChatBody _ analysis | AnalysisBody analysis => Some analysis
  | _ => None
  end.

(** The outcome of the win-rate rule, read off the number of winning rows:
    more than half of the rows win, or not. *)
Definition win_rate_findings (trades : list TradeRecord)
    (r : TradeAnalysisResult) : Prop :=
  (In "Above 50% win rate" (strengths r)
   <-> List.length trades < 2 * wins trades)
  /\ (In "Below 50% win rate" (weaknesses r)
      <-> 2 * wins trades <= List.length trades)
  /\ (In "Focus on improving your win rate by reviewing losing trades"
         (suggestions r)
      <-> 2 * wins trades <= List.length trades).

(** Every listed strategy is a non-empty, trimmed label of some row, and no
    strategy is listed twice. *)
Definition strategies_clean (trades : list TradeRecord)
    (r : TradeAnalysisResult) : Prop :=
  NoDup (strategies r)
  /\ forall s, In s (strategies r) ->
       Py.truthy s = true /\ Py.strip s = s
       /\ exists trade, In trade trades /\ Py.strip (get_trade_type trade) = s.

(** [bool(o)] for an optional string: present and non-empty. *)
Definition nonblank (o : option string) : bool :=
  match o with Some (String _ _) => true | _ => false end.

(** The rows the store gives for a user, when there is a client, a user and
    no exception. *)
Definition store_rows (supabase : option Store) (user_id : option string)
  : option (list TradeRecord) :=
  match supabase, user_id with
  | Some store, Some user =>
      match store user with Ok rows => Some rows | Raise _ => None end
  | _, _ => None
  end.

(** The outcome of the rules on the notes, for the notes sample [sampled],
    read off the result itself: the emotional weakness is never cut; its
    suggestion is cut when the three suggestions of the earlier rules are all
    in the result, and the planning strength when the three strengths of the
    earlier rules are. *)
Definition notes_findings (sampled : list TradeRecord)
    (r : TradeAnalysisResult) : Prop :=
  (In "Emotional trading noted in multiple trades" (weaknesses r)
   <-> emotional (all_notes_of sampled) = true)
  /\ (In "Work on emotional discipline during trading" (suggestions r)
      <-> emotional (all_notes_of sampled) = true
          /\ ~ (In "Focus on improving your win rate by reviewing losing trades"
                   (suggestions r)
                /\ In "Work on improving your average profit per trade"
                      (suggestions r)
                /\ In "Consider exploring more trading strategies to diversify your approach"
                      (suggestions r)))
  /\ (In "Evidence of trade planning in notes" (strengths r)
      <-> planned (all_notes_of sampled) = true
          /\ ~ (In "Above 50% win rate" (strengths r)
                /\ In "Positive average P&L" (strengths r)
                /\ In (diverse_message (List.length (strategies r)))
                      (strengths r))).

(** None of the three findings that come from the notes. *)
Definition no_notes_findings (r : TradeAnalysisResult) : Prop :=
  ~ In "Emotional trading noted in multiple trades" (weaknesses r)
  /\ ~ In "Work on emotional discipline during trading" (suggestions r)
  /\ ~ In "Evidence of trade planning in notes" (strengths r).

Definition truncation_notice : string := "... [response truncated]".

(** [reply] is the coach reply as [chat] sends it: the reply itself up to
    1000 characters, else its first 1000 characters and the notice. *)
Definition reply_cut (coach reply : string) : Prop :=
  (String.length coach <= 1000 /\ reply = coach)
  \/ (1000 < String.length coach
      /\ exists kept rest,
           coach = kept ^^ rest /\ String.length kept = 1000
           /\ reply = kept ^^ truncation_notice).

(** *** Concrete inputs *)

Definition labelled (label : string) : TradeRecord :=
  mkTrade (Some label) None None.

Definition six_strategies : list TradeRecord :=
  map labelled ["a"; "b"; "c"; "d"; "e"; "f"].

Definition fearful_trade (label : string) : TradeRecord :=
  mkTrade (Some label) (Some (-1)%Q) (Some fear_phrase).

Definition fearful_trades : list TradeRecord :=
  [fearful_trade "swing"; fearful_trade "scalp"; fearful_trade "breakout"].

Definition quiet_loss : TradeRecord := mkTrade None (Some (-1)%Q) None.

Definition fifty_one : list TradeRecord :=
  fearful_trade "swing" :: repeat quiet_loss 50.

Definition silent_backend : pipeline := fun _ _ _ => Ok [Text ""].

Definition journal_completion : string :=
  "Your helpful advice: Cut your losses early and keep a journal.".

Definition advising_backend : pipeline :=
  fun _ _ _ => Ok [Text journal_completion].

Definition failing_backend : pipeline :=
  fun _ _ _ => Raise (Exc "generation timed out").

Definition empty_store : Store := fun _ => Ok [].

Definition fearful_store : Store := fun _ => Ok fearful_trades.

Definition no_choice : nat -> nat -> list nat := fun _ _ => [].


(* ================================================================= *)
(** ** The two analyzers have the common shape *)

Ltac expose_rules t trades :=
  unfold analysis_of, strengths_of, weaknesses_of,
    suggestions_of, when, emotional, planned, diverse_message;
  cbv beta iota zeta delta [nonempty negb];
  change (fold_left _ (t :: trades) []) with (strategies_count_of (t :: trades));
  change (firstn 5 (Py.sorted_desc _ _)) with (strategies_of (t :: trades));
  change (Py.sum _ / _)%Q with (avg_pnl_of (t :: trades));
  change (inject_Z _ / _)%Q with (win_rate_of (t :: trades));
  generalize (win_rate_of (t :: trades)) (avg_pnl_of (t :: trades))
    (strategies_of (t :: trades)).

Ltac decide_rules :=
  let wr := fresh "wr" in
  let avg := fresh "avg" in
  let ranked := fresh "ranked" in
  let all_notes := fresh "all_notes" in
  intros all_notes wr avg ranked;
  destruct (Py.gt wr (1 # 2)), (Py.gt avg 0), (2 <? List.length ranked),
    (Py.truthy all_notes); try reflexivity;
  destruct (Py.contains "emotion" (Py.lower all_notes)),
    (Py.contains "fear" (Py.lower all_notes)),
    (Py.contains "greed" (Py.lower all_notes)),
    (Py.contains "plan" (Py.lower all_notes)); reflexivity.

Lemma App_analyze_trades_shape (choice : nat -> nat -> list nat)
    (trades : list TradeRecord) :
  App.analyze_trades choice trades
  = analysis_of (App.sampled_trades choice trades) trades.
Proof.
  destruct trades as [|t trades]; [reflexivity|].
  unfold App.analyze_trades.
  expose_rules t trades.
  change (Py.join " " _)
    with (all_notes_of (App.sampled_trades choice (t :: trades))).
  generalize (all_notes_of (App.sampled_trades choice (t :: trades))).
  decide_rules.
Qed.

Lemma Fn_analyze_trades_shape (trades : list TradeRecord) :
  Fn.analyze_trades trades = analysis_of (Fn.sampled_trades trades) trades.
Proof.
  destruct trades as [|t trades]; [reflexivity|].
  unfold Fn.analyze_trades.
  expose_rules t trades.
  change (Py.join " " _) with (all_notes_of (Fn.sampled_trades (t :: trades))).
  generalize (all_notes_of (Fn.sampled_trades (t :: trades))).
  decide_rules.
Qed.

(* ================================================================= *)
(** ** Win rate and average *)

Lemma gt_true_iff (a b : Q) : Py.gt a b = true <-> (b < a)%Q.
Proof.
  unfold Py.gt. rewrite negb_true_iff, <- not_true_iff_false, Qle_bool_iff.
  split; [apply Qnot_le_lt | apply Qlt_not_le].
Qed.

Lemma gt_false_iff (a b : Q) : Py.gt a b = false <-> (a <= b)%Q.
Proof.
  unfold Py.gt. rewrite negb_false_iff. apply Qle_bool_iff.
Qed.

Lemma sum_ones_from {A : Type} (xs : list A) (acc : nat) :
  fold_left (fun acc _ => acc + 1) xs acc = acc + List.length xs.
Proof.
  revert acc. induction xs as [|x xs IH]; intros acc; simpl.
  - lia.
  - rewrite IH. lia.
Qed.

Lemma sum_ones_length {A : Type} (xs : list A) : Py.sum_ones xs = List.length xs.
Proof. unfold Py.sum_ones. now rewrite sum_ones_from. Qed.

Lemma profitable_is_wins (trades : list TradeRecord) :
  List.length (filter (fun trade => Py.gt (get_pnl trade) 0) trades)
  = wins trades.
Proof.
  induction trades as [|t trades IH]; simpl; [reflexivity|].
  destruct (Qlt_le_dec 0 (get_pnl t)) as [Hpos|Hneg].
  - apply gt_true_iff in Hpos. rewrite Hpos. simpl. now rewrite IH.
  - apply gt_false_iff in Hneg. now rewrite Hneg.
Qed.

Lemma sum_from (xs : list Q) (acc : Q) :
  (fold_left Qplus xs acc == acc + fold_right Qplus 0 xs)%Q.
Proof.
  revert acc. induction xs as [|x xs IH]; intros acc; simpl.
  - ring.
  - rewrite IH. ring.
Qed.

Lemma sum_is_pnl_total (trades : list TradeRecord) :
  (Py.sum (map get_pnl trades) == pnl_total trades)%Q.
Proof.
  unfold Py.sum. rewrite sum_from.
  induction trades as [|t trades IH]; simpl.
  - ring.
  - rewrite <- IH. ring.
Qed.

Lemma count_of_pos (n : nat) : 0 < n -> (0 < count_of n)%Q.
Proof.
  intros Hn. unfold count_of. change 0%Q with (inject_Z 0).
  rewrite <- Zlt_Qlt. lia.
Qed.

(* ================================================================= *)
(** ** No trades *)

(** C2: on the empty list [analyze_trades] returns the degenerate result:
    both rates 0.0, no strategies, strengths or weaknesses, and the single
    suggestion to start recording trades; in both implementations. *)
Theorem analyze_trades_empty (choice : nat -> nat -> list nat) :
  App.analyze_trades choice []
  = mkResult 0 0 [] [] []
      ["Start recording your trades to get personalized analysis."]
  /\ Fn.analyze_trades []
     = mkResult 0 0 [] [] []
         ["Start recording your trades to get personalized analysis."].
Proof. split; reflexivity. Qed.

(* ================================================================= *)
(** ** The caps *)

Lemma analysis_of_within_caps (sampled trades : list TradeRecord) :
  within_caps (analysis_of sampled trades).
Proof.
  unfold within_caps, analysis_of.
  destruct trades as [|t trades]; cbn [strategies strengths weaknesses suggestions].
  - simpl. lia.
  - repeat split; apply firstn_le_length.
Qed.

Lemma limit_analysis_within_caps (r : TradeAnalysisResult) :
  within_caps r -> App.limit_analysis r = r.
Proof.
  destruct r as [wr avg st sg wk su]. unfold within_caps, App.limit_analysis.
  cbn [strategies strengths weaknesses suggestions win_rate avg_profit_loss].
  intros (H1 & H2 & H3 & H4).
  apply Nat.ltb_ge in H1, H2, H3, H4. now rewrite H1, H2, H3, H4.
Qed.

Lemma truncate_within_caps (r : TradeAnalysisResult) :
  within_caps r -> truncate_to_caps r = r.
Proof.
  destruct r as [wr avg st sg wk su]. unfold within_caps, truncate_to_caps.
  cbn [strategies strengths weaknesses suggestions win_rate avg_profit_loss].
  intros (H1 & H2 & H3 & H4).
  now rewrite !firstn_all2 by assumption.
Qed.

(** C3: every result of [analyze_trades] has at most 5 strategies and at
    most 3 strengths, weaknesses and suggestions, and the size limits that
    the HTTP endpoints apply afterwards leave it unchanged, as does a plain
    prefix truncation to the caps. *)
Theorem analyze_trades_within_caps (choice : nat -> nat -> list nat)
    (trades : list TradeRecord) :
  (within_caps (App.analyze_trades choice trades)
   /\ App.limit_analysis (App.analyze_trades choice trades)
      = App.analyze_trades choice trades
   /\ truncate_to_caps (App.analyze_trades choice trades)
      = App.analyze_trades choice trades)
  /\ (within_caps (Fn.analyze_trades trades)
      /\ App.limit_analysis (Fn.analyze_trades trades) = Fn.analyze_trades trades
      /\ truncate_to_caps (Fn.analyze_trades trades) = Fn.analyze_trades trades).
Proof.
  rewrite App_analyze_trades_shape, Fn_analyze_trades_shape.
  split; (split; [|split]);
    auto using analysis_of_within_caps, limit_analysis_within_caps,
      truncate_within_caps.
Qed.

(* ================================================================= *)
(** ** Counting and ranking the strategies *)

Section Dict.
Context {V : Type}.

Lemma keys_dict_set_in (d : Py.dict V) (k : string) (v : V) :
  In k (Py.keys d) -> Py.keys (Py.dict_set d k v) = Py.keys d.
Proof.
  induction d as [|[k' v'] d IH]; simpl; [tauto|].
  intros Hin. destruct (String.eqb_spec k' k) as [->|Hne]; [reflexivity|].
  simpl. f_equal. apply IH. destruct Hin; [contradiction|assumption].
Qed.

Lemma keys_dict_set_new (d : Py.dict V) (k : string) (v : V) :
  ~ In k (Py.keys d) -> Py.keys (Py.dict_set d k v) = Py.keys d ++ [k].
Proof.
  induction d as [|[k' v'] d IH]; simpl; [reflexivity|].
  intros Hnin. destruct (String.eqb_spec k' k) as [->|Hne]; [tauto|].
  simpl. f_equal. apply IH. tauto.
Qed.

Lemma dict_get_set (d : Py.dict V) (k k' : string) (v default : V) :
  Py.dict_get (Py.dict_set d k v) k' default
  = if String.eqb k k' then v else Py.dict_get d k' default.
Proof.
  induction d as [|[k0 v0] d IH]; simpl.
  - reflexivity.
  - destruct (String.eqb_spec k0 k) as [->|Hne]; simpl.
    + destruct (String.eqb_spec k k'); reflexivity.
    + rewrite IH. destruct (String.eqb_spec k0 k') as [->|]; [|reflexivity].
      destruct (String.eqb_spec k k'); [congruence|reflexivity].
Qed.
End Dict.

Lemma count_steps_labels (trades : list TradeRecord) (d : Py.dict nat) :
  fold_left count_step trades d = fold_left bump (labels trades) d.
Proof.
  revert d. induction trades as [|t trades IH]; intros d; [reflexivity|].
  unfold labels in *. simpl. rewrite IH. unfold count_step.
  destruct (Py.truthy (Py.strip (get_trade_type t))); reflexivity.
Qed.

Lemma first_index_lt (ls : list string) (s : string) :
  In s ls -> first_index ls s < List.length ls.
Proof.
  induction ls as [|x ls IH]; simpl; [tauto|].
  intros Hin. destruct (string_dec x s); [lia|].
  destruct Hin; [contradiction|]. apply IH in H. lia.
Qed.

Lemma first_index_snoc_old (ls : list string) (x s : string) :
  In s ls -> first_index (ls ++ [x]) s = first_index ls s.
Proof.
  induction ls as [|y ls IH]; simpl; [tauto|].
  intros Hin. destruct (string_dec y s); [reflexivity|].
  destruct Hin; [contradiction|]. now rewrite IH.
Qed.

Lemma first_index_snoc_new (ls : list string) (s : string) :
  ~ In s ls -> first_index (ls ++ [s]) s = List.length ls.
Proof.
  induction ls as [|y ls IH]; simpl; intros Hnin.
  - destruct (string_dec s s); [reflexivity|contradiction].
  - destruct (string_dec y s); [tauto|]. rewrite IH; tauto.
Qed.

Lemma group_size_snoc (ls : list string) (x s : string) :
  group_size (ls ++ [x]) s
  = group_size ls s + (if String.eqb x s then 1 else 0).
Proof.
  unfold group_size. rewrite count_occ_app. simpl.
  destruct (string_dec x s) as [->|Hne].
  - now rewrite String.eqb_refl.
  - apply String.eqb_neq in Hne. now rewrite Hne.
Qed.

Lemma StronglySorted_snoc {A : Type} (R : A -> A -> Prop) (l : list A) (x : A) :
  StronglySorted R l -> Forall (fun a => R a x) l -> StronglySorted R (l ++ [x]).
Proof.
  induction 1 as [|a l Hs IH Ha]; intros Hall; simpl.
  - repeat constructor.
  - inversion Hall; subst. constructor; [now apply IH|].
    apply Forall_app. split; [assumption|now constructor].
Qed.

Lemma StronglySorted_weaken {A : Type} (R R' : A -> A -> Prop) (l : list A) :
  (forall a b, In a l -> In b l -> R a b -> R' a b) ->
  StronglySorted R l -> StronglySorted R' l.
Proof.
  intros Himp Hs. induction Hs as [|a l Hs IH Ha]; constructor.
  - apply IH. intros; apply Himp; simpl; auto.
  - rewrite Forall_forall in *. intros b Hb.
    apply Himp; simpl; auto.
Qed.

Lemma counted_nil : counted [] [].
Proof. split; simpl; try tauto; constructor. Qed.

Lemma counted_bump (ls : list string) (d : Py.dict nat) (x : string) :
  counted ls d -> counted (ls ++ [x]) (bump d x).
Proof.
  intros [Hnd Hkeys Hsize Hord]. unfold bump.
  destruct (in_dec string_dec x (Py.keys d)) as [Hin|Hnin].
  - (* a label seen before: its count grows, the keys stay *)
    split.
    + now rewrite keys_dict_set_in.
    + intros s. rewrite keys_dict_set_in, in_app_iff, Hkeys by assumption.
      simpl. split; [tauto|]. intros [H|[<-|[]]]; [assumption|now apply Hkeys].
    + intros s. rewrite dict_get_set, group_size_snoc, <- !Hsize.
      destruct (String.eqb_spec x s) as [->|]; lia.
    + rewrite keys_dict_set_in by assumption.
      apply StronglySorted_weaken with (2 := Hord).
      intros a b Ha Hb Hlt. apply Hkeys in Ha, Hb.
      now rewrite !first_index_snoc_old.
  - (* a new label: appended with count 1 *)
    assert (Hx : ~ In x ls) by (now rewrite <- Hkeys).
    split.
    + rewrite keys_dict_set_new by assumption.
      apply Permutation_NoDup with (l := x :: Py.keys d).
      * apply Permutation_cons_append.
      * now constructor.
    + intros s. rewrite keys_dict_set_new, !in_app_iff, Hkeys by assumption.
      reflexivity.
    + intros s. rewrite dict_get_set, group_size_snoc, <- !Hsize.
      destruct (String.eqb_spec x s) as [->|]; lia.
    + rewrite keys_dict_set_new by assumption.
      apply StronglySorted_snoc.
      * apply StronglySorted_weaken with (2 := Hord).
        intros a b Ha Hb Hlt. apply Hkeys in Ha, Hb.
        now rewrite !first_index_snoc_old.
      * apply Forall_forall. intros a Ha. apply Hkeys in Ha.
        rewrite first_index_snoc_old, first_index_snoc_new by assumption.
        now apply first_index_lt.
Qed.

Lemma counted_fold (ls : list string) : counted ls (fold_left bump ls []).
Proof.
  induction ls as [|x ls IH] using rev_ind.
  - apply counted_nil.
  - rewrite fold_left_app. simpl. now apply counted_bump.
Qed.

Lemma counted_strategies (trades : list TradeRecord) :
  counted (labels trades) (strategies_count_of trades).
Proof.
  unfold strategies_count_of. rewrite count_steps_labels. apply counted_fold.
Qed.

Section StableSort.
Variable key : string -> nat.
Variable earlier : string -> string -> Prop.

Lemma insert_desc_perm (x : string) (l : list string) :
  Permutation (Py.insert_desc key x l) (x :: l).
Proof.
  induction l as [|y l IH]; simpl; [reflexivity|].
  destruct (key x <? key y); [|reflexivity].
  rewrite IH. apply perm_swap.
Qed.

Lemma sorted_desc_perm (l : list string) : Permutation (Py.sorted_desc key l) l.
Proof.
  induction l as [|x l IH]; simpl; [reflexivity|].
  rewrite insert_desc_perm. now constructor.
Qed.

Lemma sorted_order_key (a b : string) :
  sorted_order key earlier a b -> key b <= key a.
Proof. unfold sorted_order. lia. Qed.

Lemma insert_desc_sorted (x : string) (l : list string) :
  StronglySorted (sorted_order key earlier) l -> Forall (earlier x) l ->
  StronglySorted (sorted_order key earlier) (Py.insert_desc key x l).
Proof.
  induction 1 as [|y l Hs IH Hy]; intros Hx; simpl.
  - repeat constructor.
  - inversion Hx as [|? ? Hxy Hxl]; subst.
    destruct (Nat.ltb_spec (key x) (key y)) as [Hlt|Hge].
    + constructor; [now apply IH|].
      apply Forall_forall. intros z Hz.
      apply (Permutation_in _ (insert_desc_perm x l)) in Hz.
      destruct Hz as [<-|Hz]; [now left|].
      rewrite Forall_forall in Hy. now apply Hy.
    + constructor; [now constructor|].
      assert (Hbelow : Forall (fun z => key z <= key x) (y :: l)).
      { constructor; [assumption|].
        apply Forall_impl with (2 := Hy).
        intros z Hz. apply sorted_order_key in Hz. lia. }
      rewrite Forall_forall in Hbelow, Hx. apply Forall_forall.
      intros z Hz. specialize (Hbelow z Hz). specialize (Hx z Hz).
      unfold sorted_order.
      destruct (Nat.eq_dec (key x) (key z)); [right; tauto|left; lia].
Qed.

Lemma sorted_desc_sorted (l : list string) :
  StronglySorted earlier l ->
  StronglySorted (sorted_order key earlier) (Py.sorted_desc key l).
Proof.
  induction 1 as [|x l Hs IH Hx]; simpl; [constructor|].
  apply insert_desc_sorted; [assumption|].
  apply Forall_forall. intros z Hz.
  apply (Permutation_in _ (sorted_desc_perm l)) in Hz.
  rewrite Forall_forall in Hx. now apply Hx.
Qed.
End StableSort.

Lemma ranking_spec (trades : list TradeRecord) :
  NoDup (ranking trades)
  /\ (forall s, In s (ranking trades) <-> In s (labels trades))
  /\ StronglySorted (ranks_before (labels trades)) (ranking trades).
Proof.
  destruct (counted_strategies trades) as [Hnd Hkeys Hsize Hord].
  unfold ranking.
  set (key := fun s => Py.dict_get (strategies_count_of trades) s 0).
  pose proof (sorted_desc_perm key (Py.keys (strategies_count_of trades))) as Hperm.
  split; [|split].
  - apply Permutation_NoDup with (2 := Hnd). now symmetry.
  - intros s. rewrite <- Hkeys. split; apply Permutation_in; [|symmetry]; exact Hperm.
  - apply StronglySorted_weaken
      with (R := sorted_order key
                   (fun a b => first_index (labels trades) a
                               < first_index (labels trades) b)).
    + intros a b _ _. unfold sorted_order, ranks_before, key.
      now rewrite !Hsize.
    + now apply sorted_desc_sorted.
Qed.

Lemma ranking_length (trades : list TradeRecord) :
  List.length (ranking trades) = distinct_count trades.
Proof.
  destruct (ranking_spec trades) as (Hnd & Hin & _).
  unfold distinct_count. apply Permutation_length, NoDup_Permutation.
  - assumption.
  - apply NoDup_nodup.
  - intros s. now rewrite Hin, nodup_In.
Qed.

Lemma strategies_of_length (trades : list TradeRecord) :
  List.length (strategies_of trades) = Nat.min 5 (distinct_count trades).
Proof.
  unfold strategies_of. fold (ranking trades).
  now rewrite length_firstn, ranking_length.
Qed.

Lemma analysis_of_strategies (sampled trades : list TradeRecord) :
  strategies_ranked trades (analysis_of sampled trades).
Proof.
  exists (ranking trades). split; [|apply ranking_spec].
  destruct trades as [|t trades]; [reflexivity|].
  unfold analysis_of, strategies_of. cbn [strategies].
  fold (ranking (t :: trades)). now rewrite firstn_firstn.
Qed.

(* ================================================================= *)
(** ** The diversity strength *)

Lemma distinct_count_nonempty (trades : list TradeRecord) :
  0 < distinct_count trades -> trades <> [].
Proof. intros H ->. unfold distinct_count in H. simpl in H. lia. Qed.

Lemma analysis_of_diverse (sampled trades : list TradeRecord) :
  2 < distinct_count trades ->
  In (diverse_message (Nat.min 5 (distinct_count trades)))
     (strengths (analysis_of sampled trades)).
Proof.
  intros Hd. destruct trades as [|t trades].
  - unfold distinct_count in Hd. simpl in Hd. lia.
  - unfold analysis_of, strengths_of. cbn [strengths].
    rewrite strategies_of_length.
    assert (Hn : (2 <? Nat.min 5 (distinct_count (t :: trades))) = true)
      by (apply Nat.ltb_lt; lia).
    rewrite Hn. generalize (diverse_message (Nat.min 5 (distinct_count (t :: trades)))).
    intros msg.
    destruct (Py.gt (win_rate_of (t :: trades)) (1 # 2)),
      (Py.gt (avg_pnl_of (t :: trades)) 0); cbn [when app firstn In]; auto.
Qed.

(** The count that the code puts into the diversity message: it is read off
    the list already cut to five, so it is the smaller of 5 and the number of
    distinct labels; in both implementations. *)
Theorem analyze_trades_diverse (choice : nat -> nat -> list nat)
    (trades : list TradeRecord) :
  2 < distinct_count trades ->
  In (diverse_message (Nat.min 5 (distinct_count trades)))
     (strengths (App.analyze_trades choice trades))
  /\ In (diverse_message (Nat.min 5 (distinct_count trades)))
        (strengths (Fn.analyze_trades trades)).
Proof.
  intros Hd. rewrite App_analyze_trades_shape, Fn_analyze_trades_shape.
  split; now apply analysis_of_diverse.
Qed.

Lemma analyze_trades_diverse_witness :
  In (diverse_message (Nat.min 5 (distinct_count six_strategies)))
     (strengths (App.analyze_trades no_choice six_strategies))
  /\ In (diverse_message (Nat.min 5 (distinct_count six_strategies)))
        (strengths (Fn.analyze_trades six_strategies)).
Proof. apply analyze_trades_diverse. vm_compute. lia. Defined.

(** C4: the code falls short of the claim.  For six rows with six distinct
    labels the message reads "5 different strategies": the count is taken
    from the list already cut to five, not from the six labels counted, and
    the message with 6 is not in the result of either implementation. *)
Lemma diverse_count_is_capped :
  distinct_count six_strategies = 6
  /\ ~ In (diverse_message (distinct_count six_strategies))
          (strengths (App.analyze_trades no_choice six_strategies))
  /\ ~ In (diverse_message (distinct_count six_strategies))
          (strengths (Fn.analyze_trades six_strategies))
  /\ strengths (Fn.analyze_trades six_strategies)
     = ["Diverse trading approaches (5 different strategies)"].
Proof.
  split; [reflexivity|]. split; [|split].
  - vm_compute. intros [H|[]]. discriminate H.
  - vm_compute. intros [H|[]]. discriminate H.
  - reflexivity.
Qed.

(* ================================================================= *)
(** ** Substrings *)

Lemma append_assoc (a b c : string) : (a ^^ b) ^^ c = a ^^ b ^^ c.
Proof. induction a as [|x a IH]; simpl; [reflexivity|now rewrite IH]. Qed.

Lemma prefix_append (a q : string) : prefix a (a ^^ q) = true.
Proof.
  induction a as [|x a IH]; simpl.
  - now destruct q.
  - destruct (ascii_dec x x); [assumption|contradiction].
Qed.

Lemma prefix_split (a s : string) : prefix a s = true -> exists q, s = a ^^ q.
Proof.
  revert s. induction a as [|x a IH]; intros s H.
  - now exists s.
  - destruct s as [|y s]; simpl in H; [discriminate|].
    destruct (ascii_dec x y) as [->|]; [|discriminate].
    destruct (IH s H) as [q ->]. now exists q.
Qed.

Lemma contains_unfold (sub s : string) :
  Py.contains sub s
  = if prefix sub s then true
    else match s with
         | String _ s' => Py.contains sub s'
         | EmptyString => false
         end.
Proof. destruct s; reflexivity. Qed.

Lemma contains_intro (p sub q : string) : Py.contains sub (p ^^ sub ^^ q) = true.
Proof.
  induction p as [|x p IH].
  - simpl. rewrite contains_unfold. now rewrite prefix_append.
  - rewrite contains_unfold. simpl append.
    destruct (prefix sub (String x (p ^^ sub ^^ q))); [reflexivity|assumption].
Qed.

Lemma contains_split (sub s : string) :
  Py.contains sub s = true -> exists p q, s = p ^^ sub ^^ q.
Proof.
  induction s as [|x s IH]; rewrite contains_unfold.
  - destruct (prefix sub "") eqn:Hp; [|discriminate].
    intros _. exists "". now apply prefix_split.
  - destruct (prefix sub (String x s)) eqn:Hp.
    + intros _. exists "". now apply prefix_split.
    + intros H. destruct (IH H) as (p & q & ->). now exists (String x p), q.
Qed.

Lemma contains_trans (a b c : string) :
  Py.contains a b = true -> Py.contains b c = true -> Py.contains a c = true.
Proof.
  intros Hab Hbc.
  destruct (contains_split _ _ Hab) as (p & q & ->).
  destruct (contains_split _ _ Hbc) as (p' & q' & ->).
  rewrite !append_assoc, <- (append_assoc p' p). apply contains_intro.
Qed.

Lemma lower_append (a b : string) : Py.lower (a ^^ b) = Py.lower a ^^ Py.lower b.
Proof. induction a as [|x a IH]; simpl; [reflexivity|now rewrite IH]. Qed.

Lemma contains_lower (sub s : string) :
  Py.contains sub s = true -> Py.contains (Py.lower sub) (Py.lower s) = true.
Proof.
  intros H. destruct (contains_split _ _ H) as (p & q & ->).
  rewrite !lower_append. apply contains_intro.
Qed.

Lemma append_empty_r (s : string) : s ^^ "" = s.
Proof. induction s as [|x s IH]; simpl; [reflexivity|now rewrite IH]. Qed.

Lemma contains_left (sub q : string) : Py.contains sub (sub ^^ q) = true.
Proof. apply (contains_intro "" sub q). Qed.

Lemma contains_right (p sub : string) : Py.contains sub (p ^^ sub) = true.
Proof. rewrite <- (append_empty_r sub) at 2. apply contains_intro. Qed.

Lemma contains_refl (s : string) : Py.contains s s = true.
Proof. rewrite <- (append_empty_r s) at 2. apply contains_left. Qed.

Lemma contains_join (sep sub x : string) (parts : list string) :
  In x parts -> Py.contains sub x = true ->
  Py.contains sub (Py.join sep parts) = true.
Proof.
  intros Hin Hx. apply contains_trans with (1 := Hx). clear Hx.
  unfold Py.join. induction parts as [|y parts IH]; [contradiction|].
  simpl. destruct Hin as [->|Hin].
  - destruct parts; [apply contains_refl|apply contains_left].
  - destruct parts as [|z parts]; [contradiction|].
    apply contains_trans with (1 := IH Hin).
    rewrite <- append_assoc. apply contains_right.
Qed.

Lemma contains_truthy (sub s : string) :
  Py.truthy sub = true -> Py.contains sub s = true -> Py.truthy s = true.
Proof.
  intros Hsub H. destruct (contains_split _ _ H) as (p & q & ->).
  destruct p; [|reflexivity]. destruct sub; [discriminate|reflexivity].
Qed.

(* ================================================================= *)
(** ** Losing trades with fear in the notes *)

Lemma losing_wins (trades : list TradeRecord) : losing trades -> wins trades = 0.
Proof.
  induction 1 as [|t trades Ht _ IH]; simpl; [reflexivity|].
  destruct (Qlt_le_dec 0 (get_pnl t)) as [Hpos|_]; [|assumption].
  exfalso. apply (Qlt_not_le _ _ Hpos Ht).
Qed.

Lemma losing_total (trades : list TradeRecord) :
  losing trades -> (pnl_total trades <= 0)%Q.
Proof.
  induction 1 as [|t trades Ht _ IH]; simpl; [apply Qle_refl|].
  setoid_replace 0%Q with (0 + 0)%Q by ring. now apply Qplus_le_compat.
Qed.

Lemma losing_win_rate (trades : list TradeRecord) :
  losing trades -> Py.gt (win_rate_of trades) (1 # 2) = false.
Proof.
  intros Hl. apply gt_false_iff. unfold win_rate_of.
  rewrite sum_ones_length, profitable_is_wins, losing_wins by assumption.
  unfold Qdiv. rewrite Qmult_0_l. discriminate.
Qed.

Lemma losing_avg_pnl (trades : list TradeRecord) :
  trades <> [] -> losing trades -> Py.gt (avg_pnl_of trades) 0 = false.
Proof.
  intros Hne Hl. apply gt_false_iff. unfold avg_pnl_of.
  apply Qle_shift_div_r.
  - apply (count_of_pos (List.length trades)).
    destruct trades; [contradiction|simpl; lia].
  - rewrite Qmult_0_l, sum_is_pnl_total. now apply losing_total.
Qed.

Lemma fear_is_emotional (sampled : list TradeRecord) :
  Exists mentions_fear sampled -> emotional (all_notes_of sampled) = true.
Proof.
  intros Hex. apply Exists_exists in Hex. destruct Hex as (t & Hin & Hfear).
  unfold mentions_fear in Hfear.
  assert (Hnotes : has_notes t = true).
  { pose proof (contains_truthy fear_phrase _ eq_refl Hfear) as Ht.
    unfold has_notes, get_notes in *. now destruct (notes t). }
  assert (Hall : Py.contains fear_phrase (all_notes_of sampled) = true).
  { unfold all_notes_of. apply contains_join with (x := get_notes t).
    - apply in_map, filter_In. now split.
    - assumption. }
  unfold emotional. apply andb_true_iff. split.
  - exact (contains_truthy fear_phrase _ eq_refl Hall).
  - assert (Hlow : Py.contains "fear" (Py.lower (all_notes_of sampled)) = true).
    { apply (contains_lower "fear"), contains_trans with (2 := Hall).
      reflexivity. }
    rewrite Hlow. now rewrite orb_true_r.
Qed.

Lemma analysis_of_fear (sampled trades : list TradeRecord) :
  trades <> [] -> losing trades -> Exists mentions_fear sampled ->
  fear_findings trades (analysis_of sampled trades).
Proof.
  intros Hne Hl Hfear. destruct trades as [|t trades]; [contradiction|].
  unfold fear_findings, analysis_of, weaknesses_of, suggestions_of.
  cbn [weaknesses suggestions].
  rewrite losing_win_rate, losing_avg_pnl, fear_is_emotional by assumption.
  rewrite strategies_of_length. split; [reflexivity|].
  destruct (Nat.ltb_spec 2 (Nat.min 5 (distinct_count (t :: trades)))) as [H|H];
    cbn [negb when app firstn In].
  - split; [lia|auto].
  - split; [|lia]. intros [E|[E|[E|[]]]]; discriminate E.
Qed.

(** C5, as the code has it: for a non-empty list of trades with every [pnl]
    at most 0 and, among the rows whose notes are read (all of them up to 50
    rows; beyond that the first 50 in the serverless handler and the drawn
    sample in the application), a row whose notes contain "I felt fear
    during this trade", the weaknesses are "Below 50% win rate", "Negative
    average P&L" and "Emotional trading noted in multiple trades", and the
    suggestions contain "Work on emotional discipline during trading" exactly
    when there are more than 2 distinct labels (otherwise the cap of three
    cuts it off). *)
Theorem analyze_trades_fear (choice : nat -> nat -> list nat)
    (trades : list TradeRecord) :
  trades <> [] -> losing trades ->
  (Exists mentions_fear (App.sampled_trades choice trades) ->
   fear_findings trades (App.analyze_trades choice trades))
  /\ (Exists mentions_fear (Fn.sampled_trades trades) ->
      fear_findings trades (Fn.analyze_trades trades)).
Proof.
  intros Hne Hl. rewrite App_analyze_trades_shape, Fn_analyze_trades_shape.
  split; intros Hfear; now apply analysis_of_fear.
Qed.

Lemma analyze_trades_fear_witness :
  fear_findings fearful_trades (App.analyze_trades no_choice fearful_trades)
  /\ fear_findings fearful_trades (Fn.analyze_trades fearful_trades).
Proof.
  destruct (analyze_trades_fear no_choice fearful_trades) as [HApp HFn].
  - discriminate.
  - repeat constructor; discriminate.
  - split; [apply HApp|apply HFn]; apply Exists_cons_hd; reflexivity.
Defined.

(** C5 as stated fails.  One losing trade with the phrase in its notes: the
    three suggestions of the earlier rules fill the cap, and "Work on
    emotional discipline during trading" is cut.  And with 51 losing trades
    of which only the last has the phrase, the serverless handler reads the
    notes of the first 50 and finds no emotional trading. *)
Lemma fear_findings_cut :
  (let trades := [mkTrade None (Some (-1)%Q) (Some fear_phrase)] in
   trades <> [] /\ losing trades /\ Exists mentions_fear trades
   /\ ~ In "Work on emotional discipline during trading"
          (suggestions (App.analyze_trades no_choice trades))
   /\ ~ In "Work on emotional discipline during trading"
          (suggestions (Fn.analyze_trades trades)))
  /\ (let trades := repeat quiet_loss 50 ++ [fearful_trade "swing"] in
      trades <> [] /\ losing trades /\ Exists mentions_fear trades
      /\ ~ In "Emotional trading noted in multiple trades"
             (weaknesses (Fn.analyze_trades trades))).
Proof.
  split; cbv zeta.
  - split; [discriminate|]. split; [repeat constructor; discriminate|].
    split; [apply Exists_cons_hd; reflexivity|].
    split; vm_compute; intros [E|[E|[E|[]]]]; discriminate E.
  - split; [discriminate|]. split; [|split].
    + apply Forall_app. split.
      * apply Forall_forall. intros t Ht. apply repeat_spec in Ht. now subst.
      * repeat constructor; discriminate.
    + apply Exists_app. right. apply Exists_cons_hd. reflexivity.
    + vm_compute. intros [E|[E|[]]]; discriminate E.
Qed.

(* ================================================================= *)
(** ** The two analyzers agree up to 50 trades *)

Lemma sampled_trades_all (choice : nat -> nat -> list nat)
    (trades : list TradeRecord) :
  List.length trades <= 50 ->
  App.sampled_trades choice trades = trades
  /\ Fn.sampled_trades trades = trades.
Proof.
  intros Hlen. unfold App.sampled_trades, Fn.sampled_trades.
  rewrite Nat.min_r by assumption. rewrite Nat.leb_refl, firstn_all. now split.
Qed.

(** C10: on a list of at most 50 trades the analyzer of [app.py] and the
    one of [functions/trade-analysis.py] return the same result, whatever
    the random draw would be: the notes sample of each is the whole list in
    input order and no draw is made. *)
Theorem analyze_trades_agree (choice : nat -> nat -> list nat)
    (trades : list TradeRecord) :
  List.length trades <= 50 ->
  App.analyze_trades choice trades = Fn.analyze_trades trades
  /\ App.sampled_trades choice trades = trades
  /\ Fn.sampled_trades trades = trades.
Proof.
  intros Hlen. destruct (sampled_trades_all choice trades Hlen) as [HApp HFn].
  split; [|now split].
  unfold App.analyze_trades, Fn.analyze_trades. now rewrite HApp, HFn.
Qed.

Lemma analyze_trades_agree_witness :
  App.analyze_trades no_choice fearful_trades = Fn.analyze_trades fearful_trades
  /\ App.sampled_trades no_choice fearful_trades = fearful_trades
  /\ Fn.sampled_trades fearful_trades = fearful_trades.
Proof. apply analyze_trades_agree. simpl. lia. Defined.

(* ================================================================= *)
(** ** The coach responder *)

Section Responder.
Context `{FloatFormat}.

Lemma short_advice_test (text : string) :
  String.length (advice_part text) < 10 ->
  (negb (Py.truthy (advice_part text)) || (String.length (advice_part text) <? 10)) = true
  /\ (Py.truthy (advice_part text) && (10 <=? String.length (advice_part text))) = false.
Proof.
  intros Hshort. split.
  - apply orb_true_iff. right. now apply Nat.ltb_lt.
  - apply andb_false_iff. right. apply Nat.leb_gt. assumption.
Qed.

(** C6, as the code has it: when the backend returns a completion whose
    advice part (the text after the last "Your helpful advice:", trimmed)
    is empty or shorter than 10 characters, the serverless handler's
    [generate_coach_response] returns the keyword-matched template built
    from the analysis, and the application's returns its fixed sentence on
    consistency and trade notes; each is a function of its arguments. *)
Theorem short_generation_falls_back (generator : pipeline)
    (user_message text : string) (rest : list generated)
    (trade_analysis : TradeAnalysisResult) :
  String.length (advice_part text) < 10 ->
  (generator (Fn.prompt user_message trade_analysis) 150 1
     = Ok (Text text :: rest) ->
   Fn.generate_coach_response true (Some generator) user_message trade_analysis
   = Ok (Fn.template_response user_message trade_analysis))
  /\ (generator (App.prompt user_message trade_analysis) 150 1
        = Ok (Text text :: rest) ->
      App.generate_coach_response (Some generator) user_message trade_analysis
      = Ok App.short_generation_fallback).
Proof.
  intros Hshort. destruct (short_advice_test text Hshort) as [HApp HFn].
  split; intros Hgen.
  - unfold Fn.generate_coach_response, Fn.generated_response.
    rewrite Hgen. cbn [bind first_sequence generated_text_of try_except].
    now rewrite HFn.
  - unfold App.generate_coach_response.
    rewrite Hgen. cbn [bind first_sequence generated_text_of try_except].
    now rewrite HApp.
Qed.

Lemma backend_failure_absorbed (HAS_TRANSFORMERS : bool)
    (generator : option pipeline) (user_message : string)
    (trade_analysis : TradeAnalysisResult) :
  (backend_fails generator (App.prompt user_message trade_analysis) ->
   App.generate_coach_response generator user_message trade_analysis
   = Ok App.model_unavailable)
  /\ (HAS_TRANSFORMERS = false
      \/ backend_fails generator (Fn.prompt user_message trade_analysis) ->
      Fn.generate_coach_response HAS_TRANSFORMERS generator
        user_message trade_analysis
      = Ok (Fn.template_response user_message trade_analysis)).
Proof.
  unfold backend_fails, App.generate_coach_response,
    Fn.generate_coach_response, Fn.generated_response.
  split.
  - destruct generator as [g|]; [|reflexivity].
    destruct (g (App.prompt user_message trade_analysis) 150 1)
      as [[|[| |text] rest]|e]; simpl; tauto.
  - destruct HAS_TRANSFORMERS; [|reflexivity].
    destruct generator as [g|]; [|reflexivity].
    destruct (g (Fn.prompt user_message trade_analysis) 150 1)
      as [[|[| |text] rest]|e]; simpl; intros [Hoff|Hfail];
      try discriminate Hoff; try contradiction; reflexivity.
Qed.

Lemma app_response_total (generator : option pipeline)
    (user_message : string) (trade_analysis : TradeAnalysisResult) :
  exists response,
    App.generate_coach_response generator user_message trade_analysis
    = Ok response.
Proof.
  unfold App.generate_coach_response.
  destruct generator as [g|]; [|now eexists].
  destruct (g (App.prompt user_message trade_analysis) 150 1)
    as [[|[| |text] rest]|e];
    cbn [bind first_sequence generated_text_of try_except];
    try (now eexists).
  destruct (negb (Py.truthy (advice_part text))
            || (String.length (advice_part text) <? 10)); now eexists.
Qed.

Lemma fn_response_total (HAS_TRANSFORMERS : bool)
    (generator : option pipeline) (user_message : string)
    (trade_analysis : TradeAnalysisResult) :
  exists response,
    Fn.generate_coach_response HAS_TRANSFORMERS generator
      user_message trade_analysis
    = Ok response.
Proof.
  unfold Fn.generate_coach_response, Fn.generated_response.
  destruct HAS_TRANSFORMERS, generator as [g|];
    cbn [bind]; try (now eexists).
  destruct (g (Fn.prompt user_message trade_analysis) 150 1)
    as [[|[| |text] rest]|e];
    cbn [bind first_sequence generated_text_of try_except];
    try (now eexists).
  destruct (Py.truthy (advice_part text)
            && (10 <=? String.length (advice_part text)));
    cbn [bind]; now eexists.
Qed.

(** C8: [generate_coach_response] returns a string for every message,
    analysis and backend, and raises nothing; when the backend is missing,
    raises, returns no sequence or a sequence without text, that string is
    the fallback: the "having trouble" sentence in the application, the
    template in the serverless handler. *)
Theorem generate_coach_response_total (HAS_TRANSFORMERS : bool)
    (generator : option pipeline) (user_message : string)
    (trade_analysis : TradeAnalysisResult) :
  (exists response,
      App.generate_coach_response generator user_message trade_analysis
      = Ok response
      /\ (backend_fails generator (App.prompt user_message trade_analysis) ->
          response = App.model_unavailable))
  /\ (exists response,
         Fn.generate_coach_response HAS_TRANSFORMERS generator
           user_message trade_analysis
         = Ok response
         /\ (HAS_TRANSFORMERS = false
             \/ backend_fails generator (Fn.prompt user_message trade_analysis) ->
             response = Fn.template_response user_message trade_analysis)).
Proof.
  destruct (backend_failure_absorbed HAS_TRANSFORMERS generator
              user_message trade_analysis) as [HApp HFn].
  split.
  - destruct (app_response_total generator user_message trade_analysis)
      as [response Hr].
    exists response. split; [assumption|].
    intros Hfail. apply HApp in Hfail. congruence.
  - destruct (fn_response_total HAS_TRANSFORMERS generator
                user_message trade_analysis) as [response Hr].
    exists response. split; [assumption|].
    intros Hfail. apply HFn in Hfail. congruence.
Qed.
End Responder.

Lemma generate_coach_response_total_witness :
  let analysis := Fn.analyze_trades fearful_trades in
  @App.generate_coach_response decimal_format (Some failing_backend)
    "How am I doing?" analysis
  = Ok App.model_unavailable
  /\ @Fn.generate_coach_response decimal_format true (Some failing_backend)
       "How am I doing?" analysis
     = Ok (@Fn.template_response decimal_format "How am I doing?" analysis).
Proof.
  destruct (@generate_coach_response_total decimal_format true
              (Some failing_backend) "How am I doing?"
              (Fn.analyze_trades fearful_trades))
    as [(r & Hr & Hfallback) (r' & Hr' & Hfallback')].
  cbv zeta. split.
  - rewrite Hr. f_equal. apply Hfallback. exact I.
  - rewrite Hr'. f_equal. apply Hfallback'. right. exact I.
Defined.

Lemma short_generation_falls_back_witness :
  let analysis := Fn.analyze_trades fearful_trades in
  @Fn.generate_coach_response decimal_format true (Some silent_backend)
    "How am I doing?" analysis
  = Ok (@Fn.template_response decimal_format "How am I doing?" analysis)
  /\ @App.generate_coach_response decimal_format (Some silent_backend)
       "How am I doing?" analysis
     = Ok App.short_generation_fallback.
Proof.
  destruct (@short_generation_falls_back decimal_format silent_backend
              "How am I doing?" "" [] (Fn.analyze_trades fearful_trades))
    as [HFn HApp].
  - vm_compute. lia.
  - split; [apply HFn|apply HApp]; reflexivity.
Defined.

(** C6 as stated fails for [app.py]: on an empty completion it answers its
    fixed sentence whatever the question, not the template that the question
    selects. *)
Lemma app_short_generation_not_template :
  let analysis := Fn.analyze_trades fearful_trades in
  String.length (advice_part "") < 10
  /\ @App.generate_coach_response decimal_format (Some silent_backend)
       "what are my weaknesses" analysis
     = Ok App.short_generation_fallback
  /\ @Fn.template_response decimal_format "what are my weaknesses" analysis
     = "Areas for improvement include: Below 50% win rate, Negative average P&L, Emotional trading noted in multiple trades"
  /\ @App.generate_coach_response decimal_format (Some silent_backend)
       "what are my weaknesses" analysis
     <> Ok (@Fn.template_response decimal_format "what are my weaknesses"
              analysis).
Proof.
  cbv zeta. split; [vm_compute; lia|]. split; [reflexivity|].
  split; [reflexivity|]. vm_compute. intros E. discriminate E.
Qed.

(* ================================================================= *)
(** ** The chat endpoints without a user message *)

Lemma find_none_forall {A : Type} (f : A -> bool) (l : list A) :
  Forall (fun x => f x = false) l -> find f l = None.
Proof.
  induction 1 as [|x l Hx _ IH]; simpl; [reflexivity|]. now rewrite Hx.
Qed.

Lemma Forall_rev_of {A : Type} (P : A -> Prop) (l : list A) :
  Forall P l -> Forall P (rev l).
Proof.
  rewrite !Forall_forall. intros Hall x Hx. apply Hall. now apply in_rev.
Qed.

Section Chat.
Context `{FloatFormat}.

(** C7, as the code has it: a body with a [user_id] and no message of
    role "user" gets status 400 from the serverless handler, and from the
    application, once its store client is configured, status 200 with the
    reply "I didn't receive a message to respond to."; neither reads the
    store. *)
Theorem chat_without_user_message (HAS_TRANSFORMERS : bool)
    (generator : option pipeline) (choice : nat -> nat -> list nat)
    (store : Store) (user : string) :
  (forall (supabase : option Store) (messages : list Fn.Message),
      Forall (fun msg => Fn.role msg <> Some "user") messages ->
      status (Fn.do_POST HAS_TRANSFORMERS generator supabase
                (Fn.mkRequestData (Some user) messages))
      = 400)
  /\ (forall messages : list App.Message,
         Forall (fun msg => App.role msg <> "user") messages ->
         App.chat (Some store) generator choice
           (App.mkChatRequest messages user)
         = mkHttp 200
             (ResponseBody "I didn't receive a message to respond to.")).
Proof.
  split.
  - intros supabase messages Hnone.
    assert (Hlast : Fn.last_user_message messages = None).
    { unfold Fn.last_user_message. rewrite find_none_forall; [reflexivity|].
      apply Forall_rev_of. apply Forall_impl with (2 := Hnone).
      intros msg Hrole. unfold Fn.is_user.
      destruct (Fn.role msg) as [r|]; [|reflexivity].
      apply String.eqb_neq. congruence. }
    unfold Fn.do_POST. cbn [Fn.user_id Fn.messages]. rewrite Hlast.
    now destruct user.
  - intros messages Hnone.
    assert (Hlast : App.last_user_message messages = None).
    { unfold App.last_user_message. rewrite find_none_forall; [reflexivity|].
      apply Forall_rev_of. apply Forall_impl with (2 := Hnone).
      intros msg Hrole. now apply String.eqb_neq. }
    unfold App.chat. cbn [App.user_id App.messages]. now rewrite Hlast.
Qed.
End Chat.

Lemma chat_without_user_message_witness :
  status (@Fn.do_POST decimal_format true None (Some empty_store)
            (Fn.mkRequestData (Some "u1")
               [Fn.mkMessage (Some "assistant") (Some "Hello")]))
  = 400
  /\ @App.chat decimal_format (Some empty_store) None no_choice
       (App.mkChatRequest [App.mkMessage "assistant" "Hello"] "u1")
     = mkHttp 200 (ResponseBody "I didn't receive a message to respond to.").
Proof.
  destruct (@chat_without_user_message decimal_format true None no_choice
              empty_store "u1") as [HFn HApp].
  split; [apply HFn|apply HApp]; repeat constructor; discriminate.
Defined.

(** C7 as stated fails for [app.py]: a request with a [user_id] and no user
    message is answered with status 200 (or 500 when the store client is not
    configured), never 400. *)
Lemma app_chat_without_user_message_not_400 :
  let request := App.mkChatRequest [App.mkMessage "assistant" "Hello"] "u1" in
  Forall (fun msg => App.role msg <> "user") (App.messages request)
  /\ status (@App.chat decimal_format (Some empty_store) None no_choice request)
     = 200
  /\ status (@App.chat decimal_format None None no_choice request) = 500
  /\ status (@App.chat decimal_format (Some empty_store) None no_choice request)
     <> 400.
Proof.
  cbv zeta. split; [repeat constructor; discriminate|].
  split; [reflexivity|]. split; [reflexivity|]. vm_compute. discriminate.
Qed.


(* ================================================================= *)
(** ** Worked examples *)

(** Three trades without labels or notes: two winners out of three. *)
Example three_trades :
  let r :=
    Fn.analyze_trades
      [mkTrade None (Some 100%Q) None; mkTrade None (Some (-50)%Q) None;
       mkTrade None (Some 20%Q) None] in
  strategies r = []
  /\ strengths r = ["Above 50% win rate"; "Positive average P&L"]
  /\ weaknesses r = []
  /\ suggestions r
     = ["Consider exploring more trading strategies to diversify your approach"].
Proof. repeat split; reflexivity. Qed.

(** Labels are trimmed before grouping; the larger group comes first and
    equal groups keep their order of first appearance. *)
Example ranked_labels :
  strategies
    (Fn.analyze_trades
       (map labelled ["swing"; " scalp"; "scalp "; "  "; "breakout"; "swing"; "news"]))
  = ["swing"; "scalp"; "breakout"; "news"].
Proof. reflexivity. Qed.

(** The advice part is what follows the last marker, trimmed. *)
Example advice_after_last_marker :
  advice_part
    ("intro Your helpful advice: first Your helpful advice:  buy low, sell high  "
     ^^ newline)
  = "buy low, sell high"
  /\ advice_part "no marker here" = "no marker here"
  /\ Py.split "ab" "xabyabz" = ["x"; "y"; "z"]
  /\ Py.split "ab" "xab" = ["x"; ""].
Proof. repeat split; reflexivity. Qed.

(** The template is selected by a case-insensitive substring match. *)
Example template_by_keyword :
  @Fn.generate_coach_response decimal_format false None
    "What Should I Improve?" (Fn.analyze_trades fearful_trades)
  = Ok "Based on your trading data, I recommend: Focus on improving your win rate by reviewing losing trades, Work on improving your average profit per trade, Work on emotional discipline during trading".
Proof. reflexivity. Qed.

(** Beyond 50 trades the two analyzers can differ: a draw that leaves out
    the one row with notes hides what the first 50 rows show. *)
Example analyzers_differ_beyond_50 :
  let trades := fearful_trade "swing" :: repeat quiet_loss 50 in
  let choice := fun _ sample_size => seq 1 sample_size in
  weaknesses (Fn.analyze_trades trades)
  = ["Below 50% win rate"; "Negative average P&L";
     "Emotional trading noted in multiple trades"]
  /\ weaknesses (App.analyze_trades choice trades)
     = ["Below 50% win rate"; "Negative average P&L"].
Proof. split; vm_compute; reflexivity. Qed.


(* ================================================================= *)
(** ** Further properties: the advice part of a completion *)

Lemma length_append (a b : string) :
  String.length (a ^^ b) = String.length a + String.length b.
Proof. induction a as [|x a IH]; simpl; [reflexivity|now rewrite IH]. Qed.

Lemma contains_iff (sub s : string) :
  Py.contains sub s = true <-> substring_of sub s.
Proof.
  split; [apply contains_split|].
  intros (p & q & ->). apply contains_intro.
Qed.

Lemma lstrip_suffix (s : string) : exists p, s = p ^^ Py.lstrip s.
Proof.
  induction s as [|c s [p Hp]]; [now exists ""|]. simpl.
  destruct (Py.is_space c).
  - exists (String c p). simpl. now rewrite <- Hp.
  - now exists "".
Qed.

Lemma rstrip_prefix (s : string) : exists q, s = Py.rstrip s ^^ q.
Proof.
  induction s as [|c s [q Hq]]; [now exists ""|]. simpl.
  destruct (Py.rstrip s) as [|c' r] eqn:Hr.
  - destruct (Py.is_space c).
    + now exists (String c s).
    + exists s. reflexivity.
  - exists q. simpl. now rewrite Hq at 1.
Qed.

Lemma strip_substring (s : string) : substring_of (Py.strip s) s.
Proof.
  unfold Py.strip. destruct (rstrip_prefix s) as [q Hq].
  destruct (lstrip_suffix (Py.rstrip s)) as [p Hp].
  exists p, q. rewrite <- append_assoc, <- Hp. exact Hq.
Qed.

Lemma lstrip_lstrip (s : string) : Py.lstrip (Py.lstrip s) = Py.lstrip s.
Proof.
  induction s as [|c s IH]; [reflexivity|]. simpl.
  destruct (Py.is_space c) eqn:Hc; [assumption|]. simpl. now rewrite Hc.
Qed.

Lemma rstrip_rstrip (s : string) : Py.rstrip (Py.rstrip s) = Py.rstrip s.
Proof.
  induction s as [|c s IH]; [reflexivity|]. simpl.
  destruct (Py.rstrip s) as [|c' r] eqn:Hr.
  - destruct (Py.is_space c) eqn:Hc; [reflexivity|]. simpl. now rewrite Hc.
  - simpl in *. now rewrite IH.
Qed.

Lemma rstrip_lstrip_fixed (s : string) :
  Py.rstrip s = s -> Py.rstrip (Py.lstrip s) = Py.lstrip s.
Proof.
  induction s as [|c s IH]; [reflexivity|]. intros Hfix. simpl.
  destruct (Py.is_space c) eqn:Hc; [|exact Hfix].
  apply IH. simpl in Hfix. rewrite Hc in Hfix.
  destruct (Py.rstrip s); [discriminate|congruence].
Qed.

Lemma strip_strip (s : string) : Py.strip (Py.strip s) = Py.strip s.
Proof.
  unfold Py.strip.
  rewrite (rstrip_lstrip_fixed (Py.rstrip s) (rstrip_rstrip s)).
  apply lstrip_lstrip.
Qed.

Lemma rev_string_append (acc s : string) :
  Py.rev_string acc s = Py.rev_string "" s ^^ acc.
Proof.
  revert acc. induction s as [|c s IH]; intros acc; simpl; [reflexivity|].
  rewrite IH, (IH (String c "")), append_assoc. reflexivity.
Qed.

Lemma split_scan_cons (sep : string) (skip : nat) (cur : string)
    (c : ascii) (s : string) :
  Py.split_scan sep skip cur (String c s)
  = match skip with
    | S k => Py.split_scan sep k cur s
    | O =>
        if prefix sep (String c s)
        then Py.rev_string "" cur
             :: Py.split_scan sep (String.length sep - 1) "" s
        else Py.split_scan sep 0 (String c cur) s
    end.
Proof. reflexivity. Qed.

Lemma split_scan_nonempty (sep : string) (skip : nat) (cur s : string) :
  Py.split_scan sep skip cur s <> [].
Proof.
  revert skip cur. induction s as [|c s IH]; intros skip cur.
  - discriminate.
  - rewrite split_scan_cons. destruct skip; [|apply IH].
    destruct (prefix sep (String c s)); [discriminate|apply IH].
Qed.

Lemma last_cons_nonempty {A : Type} (x d : A) (l : list A) :
  l <> [] -> last (x :: l) d = last l d.
Proof. destruct l; [contradiction|reflexivity]. Qed.

Lemma drop_zero (s : string) : drop 0 s = s.
Proof. reflexivity. Qed.

Lemma drop_suffix (n : nat) (s : string) : exists p, s = p ^^ drop n s.
Proof.
  revert n. induction s as [|c s IH]; intros n.
  - exists "". now destruct n.
  - destruct n as [|n]; [now exists ""|].
    destruct (IH n) as [p Hp]. exists (String c p). simpl. now rewrite <- Hp.
Qed.

Lemma contains_empty (sep : string) :
  Py.truthy sep = true -> Py.contains sep "" = false.
Proof. destruct sep; [discriminate|reflexivity]. Qed.

(** The last piece of a scan: either no cut was made and it is the current
    piece followed by the rest of the text, free of the separator, or it is
    a separator-free suffix of the text. *)
Lemma split_scan_last (sep : string) (s : string) :
  Py.truthy sep = true ->
  forall (skip : nat) (cur : string),
    (last (Py.split_scan sep skip cur s) ""
     = Py.rev_string "" cur ^^ drop skip s
     /\ Py.contains sep (drop skip s) = false)
    \/ (Py.contains sep (last (Py.split_scan sep skip cur s) "") = false
        /\ exists p, s = p ^^ last (Py.split_scan sep skip cur s) "").
Proof.
  intros Hsep. induction s as [|c s IH]; intros skip cur.
  - left. assert (Hd : drop skip "" = "") by now destruct skip.
    rewrite Hd. cbn [Py.split_scan last]. rewrite append_empty_r.
    split; [reflexivity|now apply contains_empty].
  - rewrite split_scan_cons. destruct skip as [|k].
    + rewrite drop_zero. destruct (prefix sep (String c s)) eqn:Hp.
      * right. rewrite last_cons_nonempty by apply split_scan_nonempty.
        destruct (IH (String.length sep - 1) "")
          as [[Hpiece Hfree]|[Hfree [p Hp']]].
        -- cbn [Py.rev_string append] in Hpiece. rewrite Hpiece.
           split; [exact Hfree|].
           destruct (drop_suffix (String.length sep - 1) s) as [p Hp'].
           exists (String c p). simpl. now rewrite <- Hp'.
        -- split; [exact Hfree|]. exists (String c p). simpl.
           now rewrite <- Hp'.
      * destruct (IH 0 (String c cur)) as [[Hpiece Hfree]|[Hfree [p Hp']]].
        -- left. rewrite drop_zero in Hpiece, Hfree. split.
           ++ rewrite Hpiece. cbn [Py.rev_string].
              rewrite (rev_string_append (String c "")), append_assoc.
              reflexivity.
           ++ rewrite contains_unfold, Hp. exact Hfree.
        -- right. split; [exact Hfree|]. exists (String c p). simpl.
           now rewrite <- Hp'.
    + cbn [drop]. destruct (IH k cur) as [[Hpiece Hfree]|[Hfree [p Hp']]].
      * left. split; assumption.
      * right. split; [exact Hfree|]. exists (String c p). simpl.
        now rewrite <- Hp'.
Qed.

Lemma last_part_of_split (sep s : string) :
  Py.truthy sep = true ->
  Py.contains sep (Py.last_part (Py.split sep s)) = false
  /\ exists p, s = p ^^ Py.last_part (Py.split sep s).
Proof.
  intros Hsep. unfold Py.last_part, Py.split.
  destruct (split_scan_last sep s Hsep 0 "") as [[Hpiece Hfree]|Hcut].
  - rewrite drop_zero in Hpiece, Hfree. cbn [Py.rev_string append] in Hpiece.
    rewrite Hpiece. split; [exact Hfree|now exists ""].
  - exact Hcut.
Qed.

Lemma substring_of_trans (a b c : string) :
  substring_of a b -> substring_of b c -> substring_of a c.
Proof.
  rewrite <- !contains_iff. apply contains_trans.
Qed.

Lemma advice_marker_truthy : Py.truthy advice_marker = true.
Proof. reflexivity. Qed.

(** X1: the advice part of a completion never contains the marker "Your
    helpful advice:" itself. *)
Theorem advice_part_marker_free (generated_text : string) :
  Py.contains advice_marker (advice_part generated_text) = false.
Proof.
  unfold advice_part.
  destruct (last_part_of_split advice_marker generated_text advice_marker_truthy)
    as [Hfree _].
  destruct (Py.contains advice_marker
              (Py.strip (Py.last_part (Py.split advice_marker generated_text))))
    eqn:Hc; [|reflexivity].
  rewrite <- Hfree. symmetry. apply contains_trans with (1 := Hc).
  apply contains_iff, strip_substring.
Qed.

(** X2: the advice part is a piece of the generated text, and it has no
    white space left at either end: trimming it again changes nothing. *)
Theorem advice_part_trimmed_piece (generated_text : string) :
  substring_of (advice_part generated_text) generated_text
  /\ Py.strip (advice_part generated_text) = advice_part generated_text.
Proof.
  unfold advice_part. split; [|apply strip_strip].
  destruct (last_part_of_split advice_marker generated_text advice_marker_truthy)
    as [_ [p Hp]].
  apply substring_of_trans with (1 := strip_substring _).
  exists p, "". now rewrite append_empty_r.
Qed.

Lemma split_scan_no_separator (sep : string) (s cur : string) :
  Py.contains sep s = false ->
  Py.split_scan sep 0 cur s = [Py.rev_string "" cur ^^ s].
Proof.
  revert cur. induction s as [|c s IH]; intros cur Hfree.
  - cbn [Py.split_scan]. now rewrite append_empty_r.
  - rewrite contains_unfold in Hfree. rewrite split_scan_cons.
    destruct (prefix sep (String c s)); [discriminate|].
    rewrite IH by assumption. cbn [Py.rev_string].
    rewrite (rev_string_append (String c "")), append_assoc. reflexivity.
Qed.

(** X3: a completion in which the marker does not occur is taken whole:
    its advice part is the completion, trimmed. *)
Theorem advice_part_without_marker (generated_text : string) :
  Py.contains advice_marker generated_text = false ->
  advice_part generated_text = Py.strip generated_text.
Proof.
  intros Hfree. unfold advice_part, Py.split.
  now rewrite split_scan_no_separator.
Qed.

Lemma advice_part_without_marker_witness :
  advice_part "  Cut your losses early.  " = Py.strip "  Cut your losses early.  ".
Proof. apply advice_part_without_marker. reflexivity. Defined.

(* ================================================================= *)
(** ** Further properties: the length of a reply *)

Lemma take_length (n : nat) (s : string) :
  String.length (Py.take n s) = Nat.min n (String.length s).
Proof.
  revert s. induction n as [|n IH]; intros s; [reflexivity|].
  destruct s as [|c s]; simpl; [reflexivity|]. now rewrite IH.
Qed.

Lemma take_prefix (n : nat) (s : string) : exists q, s = Py.take n s ^^ q.
Proof.
  revert s. induction n as [|n IH]; intros s; [now exists s|].
  destruct s as [|c s]; [now exists ""|].
  destruct (IH s) as [q Hq]. exists q. simpl. now rewrite <- Hq.
Qed.

Section Replies.
Context `{FloatFormat}.

(** X4: when the backend returns a completion whose advice part has at
    least 10 characters, the serverless handler replies with its first 500
    characters (a reply of 10 to 500 characters), and the application with
    the whole advice part. *)
Theorem generated_advice_returned (generator : pipeline)
    (user_message text : string) (rest : list generated)
    (trade_analysis : TradeAnalysisResult) :
  10 <= String.length (advice_part text) ->
  (generator (Fn.prompt user_message trade_analysis) 150 1
     = Ok (Text text :: rest) ->
   exists reply,
     Fn.generate_coach_response true (Some generator) user_message trade_analysis
     = Ok reply
     /\ (exists cut, advice_part text = reply ^^ cut)
     /\ String.length reply = Nat.min 500 (String.length (advice_part text))
     /\ 10 <= String.length reply <= 500)
  /\ (generator (App.prompt user_message trade_analysis) 150 1
        = Ok (Text text :: rest) ->
      App.generate_coach_response (Some generator) user_message trade_analysis
      = Ok (advice_part text)).
Proof.
  intros Hlong.
  assert (Htruthy : Py.truthy (advice_part text) = true)
    by (destruct (advice_part text); [simpl in Hlong; lia|reflexivity]).
  split; intros Hgen.
  - exists (Py.take 500 (advice_part text)). split; [|split; [|split]].
    + unfold Fn.generate_coach_response, Fn.generated_response.
      rewrite Hgen. cbn [bind first_sequence generated_text_of try_except].
      rewrite Htruthy. apply Nat.leb_le in Hlong. now rewrite Hlong.
    + apply take_prefix.
    + apply take_length.
    + rewrite take_length. lia.
  - unfold App.generate_coach_response.
    rewrite Hgen. cbn [bind first_sequence generated_text_of try_except].
    rewrite Htruthy. apply Nat.ltb_ge in Hlong. now rewrite Hlong.
Qed.

Lemma template_response_length (user_message : string)
    (trade_analysis : TradeAnalysisResult) :
  10 <= String.length (Fn.template_response user_message trade_analysis).
Proof.
  unfold Fn.template_response. cbn [find fst].
  repeat match goal with
         | |- context [if Py.contains ?k ?m then _ else _] =>
             destruct (Py.contains k m)
         end;
    rewrite length_append; simpl String.length; lia.
Qed.

Lemma reply_length_bound (HAS_TRANSFORMERS : bool)
    (generator : option pipeline) (user_message reply : string)
    (trade_analysis : TradeAnalysisResult) :
  (App.generate_coach_response generator user_message trade_analysis = Ok reply ->
   10 <= String.length reply)
  /\ (Fn.generate_coach_response HAS_TRANSFORMERS generator
        user_message trade_analysis = Ok reply ->
      10 <= String.length reply).
Proof.
  split.
  - unfold App.generate_coach_response.
    destruct generator as [g|].
    + destruct (g (App.prompt user_message trade_analysis) 150 1)
        as [[|[| |text] rest]|e];
        cbn [bind first_sequence generated_text_of try_except];
        try (intros [= <-]; simpl; lia).
      destruct (Py.truthy (advice_part text)); cbn [negb orb].
      * destruct (Nat.ltb_spec (String.length (advice_part text)) 10);
          intros [= <-]; [simpl; lia|assumption].
      * intros [= <-]. simpl. lia.
    + intros [= <-]. simpl. lia.
  - unfold Fn.generate_coach_response, Fn.generated_response.
    pose proof (template_response_length user_message trade_analysis) as Ht.
    destruct HAS_TRANSFORMERS, generator as [g|]; cbn [bind];
      try (intros [= <-]; exact Ht).
    destruct (g (Fn.prompt user_message trade_analysis) 150 1)
      as [[|[| |text] rest]|e];
      cbn [bind first_sequence generated_text_of try_except];
      try (intros [= <-]; exact Ht).
    destruct (Py.truthy (advice_part text)); cbn [andb].
    + destruct (Nat.leb_spec 10 (String.length (advice_part text)));
        cbn [bind try_except]; [|intros [= <-]; exact Ht].
      remember (Py.take 500 (advice_part text)) as cut eqn:Hcut.
      intros [= <-]. rewrite Hcut, take_length. lia.
    + cbn [bind try_except]. intros [= <-]. exact Ht.
Qed.

(** X5: [generate_coach_response] always returns a reply of at least 10
    characters, in either implementation, whatever the backend does. *)
Theorem reply_never_short (HAS_TRANSFORMERS : bool)
    (generator : option pipeline) (user_message : string)
    (trade_analysis : TradeAnalysisResult) :
  (exists reply,
      App.generate_coach_response generator user_message trade_analysis
      = Ok reply
      /\ 10 <= String.length reply)
  /\ (exists reply,
         Fn.generate_coach_response HAS_TRANSFORMERS generator
           user_message trade_analysis
         = Ok reply
         /\ 10 <= String.length reply).
Proof.
  split.
  - destruct (app_response_total generator user_message trade_analysis)
      as [reply Hr].
    exists reply. split; [exact Hr|].
    now apply (proj1 (reply_length_bound HAS_TRANSFORMERS generator
                        user_message reply trade_analysis)).
  - destruct (fn_response_total HAS_TRANSFORMERS generator user_message
                trade_analysis) as [reply Hr].
    exists reply. split; [exact Hr|].
    now apply (proj2 (reply_length_bound HAS_TRANSFORMERS generator
                        user_message reply trade_analysis)).
Qed.
End Replies.

Lemma generated_advice_returned_witness :
  (exists reply,
      @Fn.generate_coach_response decimal_format true (Some advising_backend)
        "How am I doing?" (Fn.analyze_trades fearful_trades)
      = Ok reply
      /\ (exists cut, advice_part journal_completion = reply ^^ cut)
      /\ String.length reply
         = Nat.min 500 (String.length (advice_part journal_completion))
      /\ 10 <= String.length reply <= 500)
  /\ @App.generate_coach_response decimal_format (Some advising_backend)
       "How am I doing?" (Fn.analyze_trades fearful_trades)
     = Ok (advice_part journal_completion).
Proof.
  destruct (@generated_advice_returned decimal_format advising_backend
              "How am I doing?" journal_completion
              [] (Fn.analyze_trades fearful_trades))
    as [HFn HApp].
  - vm_compute. lia.
  - split; [apply HFn|apply HApp]; reflexivity.
Defined.

(* ================================================================= *)
(** ** Further properties: the rules on win rate and average *)

Lemma half_lt (w l : Z) : ((1 # 2) * inject_Z l < inject_Z w)%Q <-> (l < 2 * w)%Z.
Proof. unfold Qlt, Qmult, inject_Z. cbn [Qnum Qden Pos.mul]. lia. Qed.

Lemma half_ge (w l : Z) : (inject_Z w <= (1 # 2) * inject_Z l)%Q <-> (2 * w <= l)%Z.
Proof. unfold Qle, Qmult, inject_Z. cbn [Qnum Qden Pos.mul]. lia. Qed.

Lemma win_rate_above_half (trades : list TradeRecord) :
  trades <> [] ->
  Py.gt (win_rate_of trades) (1 # 2) = true
  <-> List.length trades < 2 * wins trades.
Proof.
  intros Hne.
  assert (Hlen : (0 < count_of (List.length trades))%Q).
  { apply count_of_pos. destruct trades; [contradiction|simpl; lia]. }
  unfold win_rate_of, Py.len. rewrite sum_ones_length, profitable_is_wins.
  fold (count_of (List.length trades)) in *.
  split.
  - intros Hgt. apply gt_true_iff in Hgt.
    destruct (Nat.lt_ge_cases (List.length trades) (2 * wins trades)) as [|Hle];
      [assumption|].
    exfalso. apply (Qlt_not_le _ _ Hgt).
    apply Qle_shift_div_r; [exact Hlen|]. apply half_ge. lia.
  - intros Hlt. apply gt_true_iff. apply Qlt_shift_div_l; [exact Hlen|].
    apply half_lt. lia.
Qed.

Lemma not_true_iff_le (b : bool) (P Q : Prop) :
  (b = true <-> P) -> (P -> ~ Q) -> (~ P -> Q) -> (b = false <-> Q).
Proof.
  intros Hb Hpq Hnpq. destruct b.
  - split; [discriminate|]. intros HQ. exfalso.
    exact (Hpq (proj1 Hb eq_refl) HQ).
  - split; [|reflexivity]. intros _. apply Hnpq.
    intros HP. apply Hb in HP. discriminate.
Qed.

Ltac rule_cases t trades sampled :=
  unfold analysis_of, strengths_of, weaknesses_of, suggestions_of,
    diverse_message;
  cbn [strengths weaknesses suggestions];
  generalize (List.length (strategies_of (t :: trades)));
  generalize (planned (all_notes_of sampled));
  generalize (emotional (all_notes_of sampled)).

Ltac refute_in :=
  let E := fresh "E" in
  intros E; repeat (destruct E as [E|E]; [try discriminate E|]);
  try contradiction; try discriminate E.

Ltac settle_rule :=
  cbn [negb when app firstn In append];
  repeat split;
  first [ intros _; reflexivity
        | solve [intros _; auto 6]
        | solve [refute_in] ].

Lemma analysis_of_win_rate (sampled trades : list TradeRecord) :
  trades <> [] -> win_rate_findings trades (analysis_of sampled trades).
Proof.
  intros Hne.
  pose proof (win_rate_above_half trades Hne) as Habove.
  assert (Hbelow : Py.gt (win_rate_of trades) (1 # 2) = false
                   <-> 2 * wins trades <= List.length trades).
  { apply not_true_iff_le with (1 := Habove); lia. }
  destruct trades as [|t trades]; [contradiction|].
  unfold win_rate_findings. rewrite <- Habove, <- Hbelow. clear Habove Hbelow.
  rule_cases t trades sampled.
  intros emo plan n.
  destruct (Py.gt (win_rate_of (t :: trades)) (1 # 2)),
    (Py.gt (avg_pnl_of (t :: trades)) 0), (2 <? n), emo, plan;
    settle_rule.
Qed.

(** X6: for a non-empty list of trades, "Above 50% win rate" is a strength
    exactly when more than half of the rows have [pnl > 0]; otherwise, also
    at exactly one half, "Below 50% win rate" is a weakness and the
    suggestion to review losing trades is given; in both implementations. *)
Theorem analyze_trades_win_rate_rule (choice : nat -> nat -> list nat)
    (trades : list TradeRecord) :
  trades <> [] ->
  win_rate_findings trades (App.analyze_trades choice trades)
  /\ win_rate_findings trades (Fn.analyze_trades trades).
Proof.
  intros Hne. rewrite App_analyze_trades_shape, Fn_analyze_trades_shape.
  split; now apply analysis_of_win_rate.
Qed.

Lemma analyze_trades_win_rate_rule_witness :
  win_rate_findings fearful_trades (App.analyze_trades no_choice fearful_trades)
  /\ win_rate_findings fearful_trades (Fn.analyze_trades fearful_trades).
Proof. apply analyze_trades_win_rate_rule. discriminate. Defined.

(* ================================================================= *)
(** ** Further properties: the listed strategies *)

Lemma firstn_In {A : Type} (n : nat) (l : list A) (x : A) :
  In x (firstn n l) -> In x l.
Proof.
  intros Hin. rewrite <- (firstn_skipn n l). apply in_or_app. now left.
Qed.

Lemma NoDup_firstn {A : Type} (n : nat) (l : list A) :
  NoDup l -> NoDup (firstn n l).
Proof.
  intros Hnd. rewrite <- (firstn_skipn n l) in Hnd.
  now apply NoDup_app_remove_r in Hnd.
Qed.

Lemma analysis_of_strategies_clean (sampled trades : list TradeRecord) :
  strategies_clean trades (analysis_of sampled trades).
Proof.
  destruct (analysis_of_strategies sampled trades)
    as (ranked & Hcut & Hnd & Hin & _).
  unfold strategies_clean. rewrite Hcut. split; [now apply NoDup_firstn|].
  intros s Hs. apply firstn_In, Hin in Hs. unfold labels in Hs.
  apply filter_In in Hs. destruct Hs as [Hmap Htruthy].
  apply in_map_iff in Hmap. destruct Hmap as (trade & <- & Htrade).
  split; [assumption|]. split; [apply strip_strip|]. now exists trade.
Qed.

(** X8: every strategy in a result is a non-empty label without white space
    at its ends, is the trimmed [trade_type] of some input row, and is
    listed once; in both implementations. *)
Theorem analyze_trades_strategies_clean (choice : nat -> nat -> list nat)
    (trades : list TradeRecord) :
  strategies_clean trades (App.analyze_trades choice trades)
  /\ strategies_clean trades (Fn.analyze_trades trades).
Proof.
  rewrite App_analyze_trades_shape, Fn_analyze_trades_shape.
  split; apply analysis_of_strategies_clean.
Qed.

(* ================================================================= *)
(** ** Further properties: what the analysis reads *)

Lemma win_rate_of_pnl (l l' : list TradeRecord) :
  map get_pnl l = map get_pnl l' -> win_rate_of l = win_rate_of l'.
Proof.
  intros Heq. unfold win_rate_of, Py.len. rewrite !sum_ones_length.
  rewrite <- (length_map get_pnl (filter _ l)),
    <- (length_map get_pnl (filter _ l')),
    <- !(filter_map_swap (fun x => Py.gt x 0) get_pnl).
  rewrite <- (length_map get_pnl l), <- (length_map get_pnl l').
  now rewrite Heq.
Qed.

Lemma avg_pnl_of_pnl (l l' : list TradeRecord) :
  map get_pnl l = map get_pnl l' -> avg_pnl_of l = avg_pnl_of l'.
Proof.
  intros Heq. unfold avg_pnl_of, Py.len.
  rewrite <- (length_map get_pnl l), <- (length_map get_pnl l').
  now rewrite Heq.
Qed.

Lemma strategies_of_types (l l' : list TradeRecord) :
  map get_trade_type l = map get_trade_type l' ->
  strategies_of l = strategies_of l'.
Proof.
  intros Heq.
  assert (Hcount : strategies_count_of l = strategies_count_of l').
  { unfold strategies_count_of. rewrite !count_steps_labels. unfold labels.
    rewrite <- (map_map get_trade_type Py.strip l),
      <- (map_map get_trade_type Py.strip l').
    now rewrite Heq. }
  unfold strategies_of. now rewrite Hcount.
Qed.

Lemma analysis_of_ext (sampled sampled' l l' : list TradeRecord) :
  map get_pnl l = map get_pnl l' ->
  map get_trade_type l = map get_trade_type l' ->
  all_notes_of sampled = all_notes_of sampled' ->
  analysis_of sampled l = analysis_of sampled' l'.
Proof.
  intros Hpnl Htypes Hnotes. unfold analysis_of.
  rewrite (win_rate_of_pnl l l' Hpnl), (avg_pnl_of_pnl l l' Hpnl),
    (strategies_of_types l l' Htypes), Hnotes.
  destruct l, l'; try discriminate; reflexivity.
Qed.

(** X9: the serverless analyzer never reads the notes of a row after the
    50th: replacing the notes of all later rows in any way leaves the result
    unchanged. *)
Theorem notes_after_50_unread (new_notes : TradeRecord -> option string)
    (trades : list TradeRecord) :
  Fn.analyze_trades
    (firstn 50 trades ++ map (with_notes new_notes) (skipn 50 trades))
  = Fn.analyze_trades trades.
Proof.
  rewrite !Fn_analyze_trades_shape.
  set (rest := map (with_notes new_notes) (skipn 50 trades)).
  assert (Hpnl : map get_pnl (firstn 50 trades ++ rest) = map get_pnl trades).
  { unfold rest. rewrite map_app, map_map. cbn [get_pnl with_notes pnl].
    fold get_pnl. rewrite <- map_app. now rewrite firstn_skipn. }
  assert (Htypes : map get_trade_type (firstn 50 trades ++ rest)
                   = map get_trade_type trades).
  { unfold rest. rewrite map_app, map_map.
    cbn [get_trade_type with_notes trade_type].
    fold get_trade_type. rewrite <- map_app. now rewrite firstn_skipn. }
  apply analysis_of_ext; [exact Hpnl|exact Htypes|].
  f_equal. unfold Fn.sampled_trades.
  assert (Hlen : List.length (firstn 50 trades ++ rest) = List.length trades).
  { rewrite <- (length_map get_pnl), Hpnl. apply length_map. }
  rewrite Hlen.
  destruct (Nat.le_gt_cases (List.length trades) 50) as [Hle|Hgt].
  - unfold rest. rewrite (skipn_all2 trades Hle). cbn [map].
    rewrite app_nil_r, Nat.min_r by assumption.
    now rewrite (firstn_all2 trades Hle).
  - rewrite Nat.min_l by lia. rewrite firstn_app, firstn_firstn, Nat.min_id.
    replace (50 - List.length (firstn 50 trades)) with 0
      by (rewrite length_firstn; lia).
    cbn [firstn]. now rewrite app_nil_r.
Qed.

(* ================================================================= *)
(** ** Further properties: the trade-analysis endpoints

    The statements on the endpoints are written on the answers, so that they
    also hold of a run in which the analysis of the rows raises inside the
    [try] (a column of another kind, a number outside the float range) and
    the endpoint answers 500. *)

Ltac status_cases :=
  repeat split; intros;
  repeat match goal with
         | H : _ /\ _ |- _ => destruct H
         | H : _ \/ _ |- _ => destruct H
         | H : exists _, _ |- _ => destruct H
         end;
  first [ congruence | tauto | (left; congruence) | (right; congruence) ].

Lemma app_analysis_unlimited (choice : nat -> nat -> list nat)
    (trades : list TradeRecord) :
  App.limit_analysis (App.analyze_trades choice trades)
  = App.analyze_trades choice trades.
Proof.
  apply limit_analysis_within_caps.
  rewrite App_analyze_trades_shape. apply analysis_of_within_caps.
Qed.

(** X10: an answer 200 of [get_trade_analysis] carries exactly the result
    of [analyze_trades] on the rows that the store returned for the user (its
    size limits change nothing), and so does an answer 200 of [do_GET]; when
    both answer 200 and there are at most 50 rows, the two bodies are
    equal. *)
Theorem trade_analysis_answers (supabase : option Store)
    (choice : nat -> nat -> list nat) (user : string) :
  (status (App.get_trade_analysis supabase choice user) = 200 ->
   exists trades,
     store_rows supabase (Some user) = Some trades
     /\ body (App.get_trade_analysis supabase choice user)
        = AnalysisBody (App.analyze_trades choice trades))
  /\ (status (Fn.do_GET supabase (Some user)) = 200 ->
      exists trades,
        store_rows supabase (Some user) = Some trades
        /\ body (Fn.do_GET supabase (Some user))
           = AnalysisBody (Fn.analyze_trades trades))
  /\ (status (App.get_trade_analysis supabase choice user) = 200 ->
      status (Fn.do_GET supabase (Some user)) = 200 ->
      forall trades,
        store_rows supabase (Some user) = Some trades ->
        List.length trades <= 50 ->
        body (App.get_trade_analysis supabase choice user)
        = body (Fn.do_GET supabase (Some user))).
Proof.
  unfold App.get_trade_analysis, Fn.do_GET, Fn.query_supabase, store_rows.
  destruct (negb (Py.truthy user));
    (destruct supabase as [store|];
     [destruct (store user) as [rows|e] eqn:Hrows|]);
    cbn [bind status body]; try solve [status_cases];
    rewrite app_analysis_unlimited.
  - split; [intros _; now exists rows|]. status_cases.
  - split; [intros _; now exists rows|].
    split; [intros _; now exists rows|].
    intros _ _ trades [= <-] Hlen. f_equal.
    destruct (sampled_trades_all choice rows Hlen) as [Hall Hall'].
    unfold App.analyze_trades, Fn.analyze_trades. now rewrite Hall, Hall'.
Qed.

Lemma trade_analysis_answers_witness :
  body (App.get_trade_analysis (Some fearful_store) no_choice "u1")
  = AnalysisBody (App.analyze_trades no_choice fearful_trades)
  /\ body (Fn.do_GET (Some fearful_store) (Some "u1"))
     = AnalysisBody (Fn.analyze_trades fearful_trades)
  /\ body (App.get_trade_analysis (Some fearful_store) no_choice "u1")
     = body (Fn.do_GET (Some fearful_store) (Some "u1")).
Proof.
  destruct (trade_analysis_answers (Some fearful_store) no_choice "u1")
    as (HApp & HFn & Hsame).
  destruct (HApp eq_refl) as (trades & [= <-] & HbodyApp).
  destruct (HFn eq_refl) as (trades & [= <-] & HbodyFn).
  split; [exact HbodyApp|]. split; [exact HbodyFn|].
  apply (Hsame eq_refl eq_refl fearful_trades eq_refl). simpl. lia.
Defined.

(** X11: [do_GET] answers 400 exactly when the [user_id] parameter is
    missing or empty, whatever the state of the store; with a user id and a
    store that gives no rows (no client, or an exception) it answers 500, and
    so does [get_trade_analysis], which never answers 400. *)
Theorem trade_analysis_errors (supabase : option Store)
    (choice : nat -> nat -> list nat) (user_id : option string)
    (user : string) :
  (status (Fn.do_GET supabase user_id) = 400 <-> nonblank user_id = false)
  /\ (nonblank user_id = true -> store_rows supabase user_id = None ->
      status (Fn.do_GET supabase user_id) = 500)
  /\ (store_rows supabase (Some user) = None ->
      status (App.get_trade_analysis supabase choice user) = 500)
  /\ status (App.get_trade_analysis supabase choice user) <> 400.
Proof.
  unfold Fn.do_GET, Fn.query_supabase, App.get_trade_analysis, store_rows.
  split; [|split; [|split]].
  - destruct user_id as [[|c u]|]; cbn [Py.truthy negb status nonblank];
      try solve [status_cases].
    destruct supabase as [store|]; [destruct (store (String c u))|];
      cbn [status]; status_cases.
  - destruct user_id as [[|c u]|]; cbn [Py.truthy negb status nonblank];
      try solve [status_cases].
    destruct supabase as [store|]; [destruct (store (String c u))|];
      cbn [status]; status_cases.
  - destruct supabase as [store|]; [destruct (store user)|];
      cbn [bind status]; status_cases.
  - destruct supabase as [store|]; [destruct (store user)|];
      cbn [bind status]; discriminate.
Qed.

Lemma trade_analysis_errors_witness :
  status (Fn.do_GET None (Some "u1")) = 500
  /\ status (App.get_trade_analysis None no_choice "u1") = 500.
Proof.
  destruct (trade_analysis_errors None no_choice (Some "u1") "u1")
    as (_ & HFn & HApp & _).
  split; [apply HFn|apply HApp]; reflexivity.
Defined.

(* ================================================================= *)
(** ** Further properties: the chat endpoints *)

Lemma find_app_skip {A : Type} (f : A -> bool) (l l' : list A) :
  Forall (fun x => f x = false) l -> find f (l ++ l') = find f l'.
Proof.
  induction 1 as [|x l Hx _ IH]; simpl; [reflexivity|]. now rewrite Hx.
Qed.

(** X12: both chat endpoints answer the latest message of role "user":
    messages after it of other roles, and every message before it, are not
    looked at; the serverless handler takes its [content] as it is, missing
    or empty included. *)
Theorem latest_user_message (text : string) (content : option string) :
  (forall before after : list App.Message,
      Forall (fun msg => App.role msg <> "user") after ->
      App.last_user_message (before ++ App.mkMessage "user" text :: after)
      = Some text)
  /\ (forall before after : list Fn.Message,
         Forall (fun msg => Fn.role msg <> Some "user") after ->
         Fn.last_user_message
           (before ++ Fn.mkMessage (Some "user") content :: after)
         = content).
Proof.
  split; intros before after Hafter.
  - unfold App.last_user_message.
    rewrite rev_app_distr. cbn [rev]. rewrite <- app_assoc.
    rewrite find_app_skip; [reflexivity|].
    apply Forall_rev_of, Forall_impl with (2 := Hafter).
    intros msg Hrole. now apply String.eqb_neq.
  - unfold Fn.last_user_message.
    rewrite rev_app_distr. cbn [rev]. rewrite <- app_assoc.
    rewrite find_app_skip; [reflexivity|].
    apply Forall_rev_of, Forall_impl with (2 := Hafter).
    intros msg Hrole. unfold Fn.is_user.
    destruct (Fn.role msg) as [r|]; [|reflexivity].
    apply String.eqb_neq. congruence.
Qed.

Lemma latest_user_message_witness :
  App.last_user_message
    [App.mkMessage "user" "first"; App.mkMessage "assistant" "ok";
     App.mkMessage "user" "second"; App.mkMessage "assistant" "fine"]
  = Some "second"
  /\ Fn.last_user_message
       [Fn.mkMessage (Some "user") (Some "first");
        Fn.mkMessage (Some "user") None;
        Fn.mkMessage (Some "assistant") (Some "fine")]
     = None.
Proof.
  destruct (latest_user_message "second" None) as [HApp HFn]. split.
  - apply (HApp [App.mkMessage "user" "first"; App.mkMessage "assistant" "ok"]
                [App.mkMessage "assistant" "fine"]).
    repeat constructor; discriminate.
  - apply (HFn [Fn.mkMessage (Some "user") (Some "first")]
               [Fn.mkMessage (Some "assistant") (Some "fine")]).
    repeat constructor; discriminate.
Defined.

Section ChatAnswers.
Context `{FloatFormat}.

(** X13: when the application's [chat] answers with a reply and an
    analysis, the reply is the coach reply to the latest user message for
    that analysis, as it is up to 1000 characters, and otherwise cut to its
    first 1000 characters with "... [response truncated]" appended; it never
    exceeds 1024 characters. *)
Theorem chat_reply_cut (supabase : option Store)
    (generator : option pipeline) (choice : nat -> nat -> list nat)
    (request : App.ChatRequest) :
  match body (App.chat supabase generator choice request) with
  | ChatBody reply analysis =>
      exists message coach,
        App.last_user_message (App.messages request) = Some message
        /\ App.generate_coach_response generator message analysis = Ok coach
        /\ reply_cut coach reply
        /\ String.length reply <= 1024
  | _ => True
  end.
Proof.
  unfold App.chat. destruct supabase as [store|]; [|exact I].
  destruct (App.last_user_message (App.messages request)) as [[|c m]|];
    try exact I.
  destruct (store (App.user_id request)) as [trades|e]; [|exact I].
  cbn [bind].
  destruct (app_response_total generator (String c m)
              (App.analyze_trades choice trades)) as [coach Hcoach].
  rewrite Hcoach. cbn [bind body]. rewrite app_analysis_unlimited.
  exists (String c m), coach. split; [reflexivity|]. split; [exact Hcoach|].
  unfold reply_cut.
  destruct (Nat.ltb_spec 1000 (String.length coach)) as [Hlong|Hshort].
  - split.
    + right. split; [exact Hlong|].
      destruct (take_prefix 1000 coach) as [rest Hrest].
      exists (Py.take 1000 coach), rest. split; [exact Hrest|].
      split; [|reflexivity]. rewrite take_length. lia.
    + rewrite length_append, take_length. simpl String.length. lia.
  - split; [left; now split|lia].
Qed.

(** X14: [do_POST] answers 400 exactly when the [user_id] or the content of
    the latest user message is missing or empty; with both present and a
    store that gives no rows it answers 500; an answer 200 carries the reply
    of [generate_coach_response] to that message and [analyze_trades] of the
    rows that the store returned; there is no other status. *)
Theorem do_POST_status (HAS_TRANSFORMERS : bool)
    (generator : option pipeline) (supabase : option Store)
    (request_data : Fn.RequestData) :
  let answer := Fn.do_POST HAS_TRANSFORMERS generator supabase request_data in
  let valid :=
    nonblank (Fn.user_id request_data)
    && nonblank (Fn.last_user_message (Fn.messages request_data)) in
  (status answer = 400 <-> valid = false)
  /\ (valid = true ->
      store_rows supabase (Fn.user_id request_data) = None ->
      status answer = 500)
  /\ (status answer = 200 ->
      exists trades message reply,
        store_rows supabase (Fn.user_id request_data) = Some trades
        /\ Fn.last_user_message (Fn.messages request_data) = Some message
        /\ Fn.generate_coach_response HAS_TRANSFORMERS generator message
             (Fn.analyze_trades trades) = Ok reply
        /\ body answer = ChatBody reply (Fn.analyze_trades trades))
  /\ (status answer = 200 \/ status answer = 400 \/ status answer = 500).
Proof.
  cbv zeta. unfold Fn.do_POST, Fn.query_supabase, store_rows.
  destruct (Fn.user_id request_data) as [[|c user]|];
    cbn [nonblank andb status]; try solve [status_cases].
  destruct (Fn.last_user_message (Fn.messages request_data)) as [[|c' m]|];
    cbn [nonblank andb status]; try solve [status_cases].
  destruct supabase as [store|];
    [destruct (store (String c user)) as [trades|e]|];
    cbn [status]; try solve [status_cases].
  destruct (fn_response_total HAS_TRANSFORMERS generator (String c' m)
              (Fn.analyze_trades trades)) as [reply Hreply].
  rewrite Hreply. cbn [bind status body].
  split; [status_cases|]. split; [status_cases|]. split; [|status_cases].
  intros _. now exists trades, (String c' m), reply.
Qed.

(** X15: the application's [chat] answers 500 when no store client is
    configured, and when the latest user message has content and the store
    raises; with a client and no such content it answers 200 with "I didn't
    receive a message to respond to."; an answer 200 to a message with
    content carries [analyze_trades] of the rows that the store returned; it
    never answers 400. *)
Theorem chat_status (supabase : option Store)
    (generator : option pipeline) (choice : nat -> nat -> list nat)
    (request : App.ChatRequest) :
  let answer := App.chat supabase generator choice request in
  let asked := nonblank (App.last_user_message (App.messages request)) in
  let rows := store_rows supabase (Some (App.user_id request)) in
  (supabase = None \/ (asked = true /\ rows = None) -> status answer = 500)
  /\ (supabase <> None -> asked = false ->
      answer
      = mkHttp 200 (ResponseBody "I didn't receive a message to respond to."))
  /\ (status answer = 200 -> asked = true ->
      exists trades,
        rows = Some trades
        /\ analysis_in answer = Some (App.analyze_trades choice trades))
  /\ status answer <> 400.
Proof.
  cbv zeta. unfold App.chat, store_rows.
  destruct supabase as [store|]; cbn [status]; [|status_cases].
  destruct (App.last_user_message (App.messages request)) as [[|c m]|];
    cbn [nonblank status]; try solve [status_cases].
  destruct (store (App.user_id request)) as [trades|e]; cbn [bind status].
  - destruct (app_response_total generator (String c m)
                (App.analyze_trades choice trades)) as [reply Hreply].
    rewrite Hreply. cbn [bind status analysis_in body].
    rewrite app_analysis_unlimited.
    split; [status_cases|]. split; [status_cases|]. split; [|status_cases].
    intros _ _. now exists trades.
  - status_cases.
Qed.
End ChatAnswers.

Lemma do_POST_status_witness :
  status (@Fn.do_POST decimal_format true None None
            (Fn.mkRequestData (Some "u1")
               [Fn.mkMessage (Some "user") (Some "How am I doing?")]))
  = 500.
Proof.
  destruct (@do_POST_status decimal_format true None None
              (Fn.mkRequestData (Some "u1")
                 [Fn.mkMessage (Some "user") (Some "How am I doing?")]))
    as (_ & Hstore & _).
  apply Hstore; reflexivity.
Defined.

Lemma chat_status_witness :
  let request :=
    App.mkChatRequest [App.mkMessage "user" "How am I doing?"] "u1" in
  exists trades,
    store_rows (Some fearful_store) (Some "u1") = Some trades
    /\ analysis_in
         (@App.chat decimal_format (Some fearful_store) None no_choice request)
       = Some (App.analyze_trades no_choice trades).
Proof.
  cbv zeta.
  destruct (@chat_status decimal_format (Some fearful_store) None no_choice
              (App.mkChatRequest [App.mkMessage "user" "How am I doing?"] "u1"))
    as (_ & _ & Hcarried & _).
  apply Hcarried; reflexivity.
Defined.

(* ================================================================= *)
(** ** Further properties: the findings from the notes *)

Lemma strategies_of_cut (trades : list TradeRecord) :
  firstn 5 (strategies_of trades) = strategies_of trades.
Proof. unfold strategies_of. now rewrite firstn_firstn. Qed.

Lemma analysis_of_notes (sampled trades : list TradeRecord) :
  trades <> [] -> notes_findings sampled (analysis_of sampled trades).
Proof.
  intros Hne. destruct trades as [|t trades]; [contradiction|].
  unfold notes_findings, analysis_of, strengths_of, weaknesses_of,
    suggestions_of.
  cbn [strategies strengths weaknesses suggestions].
  rewrite strategies_of_cut. unfold diverse_message.
  generalize (List.length (strategies_of (t :: trades))).
  generalize (planned (all_notes_of sampled)).
  generalize (emotional (all_notes_of sampled)).
  intros emo plan n.
  destruct (Py.gt (win_rate_of (t :: trades)) (1 # 2)),
    (Py.gt (avg_pnl_of (t :: trades)) 0), (2 <? n), emo, plan;
    cbn [negb when app firstn In append];
    (split; [|split]); split;
    first [ solve [intros _; auto 6]
          | solve [intros _; split; [reflexivity|];
                   intros (H1 & H2 & H3);
                   repeat (destruct H1 as [H1|H1]; [try discriminate H1|]);
                   try contradiction;
                   repeat (destruct H2 as [H2|H2]; [try discriminate H2|]);
                   try contradiction;
                   repeat (destruct H3 as [H3|H3]; [try discriminate H3|]);
                   contradiction]
          | solve [intros [E _]; discriminate E]
          | solve [intros [_ E]; exfalso; apply E; repeat split; auto 6]
          | solve [refute_in] ].
Qed.

(** X16: for a non-empty list of trades and the notes sample of each
    implementation: "Emotional trading noted in multiple trades" is a
    weakness exactly when the sampled notes mention emotion, fear or greed;
    its suggestion is in the result exactly when that holds and the three
    suggestions of the earlier rules are not all in the result; "Evidence of
    trade planning in notes" is a strength exactly when the sampled notes
    mention a plan and the three strengths of the earlier rules are not all
    in the result (the cap of three cuts the fourth item). *)
Theorem analyze_trades_notes_rule (choice : nat -> nat -> list nat)
    (trades : list TradeRecord) :
  trades <> [] ->
  notes_findings (App.sampled_trades choice trades)
    (App.analyze_trades choice trades)
  /\ notes_findings (Fn.sampled_trades trades) (Fn.analyze_trades trades).
Proof.
  intros Hne. rewrite App_analyze_trades_shape, Fn_analyze_trades_shape.
  split; now apply analysis_of_notes.
Qed.

Lemma analyze_trades_notes_rule_witness :
  notes_findings (App.sampled_trades no_choice fearful_trades)
    (App.analyze_trades no_choice fearful_trades)
  /\ notes_findings (Fn.sampled_trades fearful_trades)
       (Fn.analyze_trades fearful_trades).
Proof. apply analyze_trades_notes_rule. discriminate. Defined.

Lemma no_notes_all_notes (sampled : list TradeRecord) :
  Forall (fun trade => has_notes trade = false) sampled ->
  all_notes_of sampled = "".
Proof.
  intros Hnone. unfold all_notes_of.
  replace (filter has_notes sampled) with (@nil TradeRecord); [reflexivity|].
  induction Hnone as [|t sampled Ht _ IH]; [reflexivity|].
  simpl. now rewrite Ht.
Qed.

Lemma analysis_of_no_notes (sampled trades : list TradeRecord) :
  Forall (fun trade => has_notes trade = false) sampled ->
  no_notes_findings (analysis_of sampled trades).
Proof.
  intros Hnone. destruct trades as [|t trades].
  - unfold no_notes_findings. cbn. repeat split; refute_in.
  - destruct (analysis_of_notes sampled (t :: trades)) as (Hemo & Hsug & Hplan);
      [discriminate|].
    unfold no_notes_findings.
    rewrite Hemo, Hsug, Hplan, (no_notes_all_notes sampled Hnone).
    split; [|split].
    + intros E. cbn in E. discriminate E.
    + intros [E _]. cbn in E. discriminate E.
    + intros [E _]. cbn in E. discriminate E.
Qed.

(** X17: when no row of the notes sample has notes (the key is missing or
    the text is empty), the result has none of the findings that come from
    the notes: not the emotional weakness, not its suggestion and not the
    planning strength; in both implementations. *)
Theorem analyze_trades_without_notes (choice : nat -> nat -> list nat)
    (trades : list TradeRecord) :
  (Forall (fun trade => has_notes trade = false)
     (App.sampled_trades choice trades) ->
   no_notes_findings (App.analyze_trades choice trades))
  /\ (Forall (fun trade => has_notes trade = false) (Fn.sampled_trades trades) ->
      no_notes_findings (Fn.analyze_trades trades)).
Proof.
  rewrite App_analyze_trades_shape, Fn_analyze_trades_shape.
  split; apply analysis_of_no_notes.
Qed.

Lemma analyze_trades_without_notes_witness :
  no_notes_findings (App.analyze_trades no_choice six_strategies)
  /\ no_notes_findings (Fn.analyze_trades six_strategies).
Proof.
  destruct (analyze_trades_without_notes no_choice six_strategies)
    as [HApp HFn].
  split; [apply HApp|apply HFn]; repeat constructor.
Defined.

(* ================================================================= *)
(** ** Further properties: the notes sample *)

Lemma select_incl {A : Type} (l : list A) (indices : list nat) :
  incl (select l indices) l.
Proof.
  unfold select. intros x Hx. apply in_flat_map in Hx.
  destruct Hx as (i & _ & Hx).
  destruct (nth_error l i) as [y|] eqn:Hi; [|contradiction].
  destruct Hx as [<-|[]]. now apply nth_error_In with (n := i).
Qed.

Lemma select_length {A : Type} (l : list A) (indices : list nat) :
  Forall (fun i => i < List.length l) indices ->
  List.length (select l indices) = List.length indices.
Proof.
  unfold select. induction 1 as [|i indices Hi _ IH]; [reflexivity|].
  cbn [flat_map]. rewrite length_app, IH.
  apply nth_error_Some in Hi. now destruct (nth_error l i).
Qed.

(** X18: the notes sample consists of input rows; in the serverless handler
    it has min(50, len) rows, and in the application it is the whole list up
    to 50 rows and beyond that one row per drawn index, provided the drawn
    indices are within the list. *)
Theorem sampled_trades_rows (choice : nat -> nat -> list nat)
    (trades : list TradeRecord) :
  incl (App.sampled_trades choice trades) trades
  /\ incl (Fn.sampled_trades trades) trades
  /\ List.length (Fn.sampled_trades trades) = Nat.min 50 (List.length trades)
  /\ (50 < List.length trades ->
      Forall (fun i => i < List.length trades)
        (choice (List.length trades) 50) ->
      List.length (App.sampled_trades choice trades)
      = List.length (choice (List.length trades) 50)).
Proof.
  unfold App.sampled_trades, Fn.sampled_trades. cbv zeta.
  split; [|split; [|split]].
  - destruct (List.length trades <=? Nat.min 50 (List.length trades)).
    + intros x. apply firstn_In.
    + apply select_incl.
  - intros x. apply firstn_In.
  - rewrite length_firstn. lia.
  - intros Hlong Hvalid. rewrite Nat.min_l by lia.
    destruct (Nat.leb_spec (List.length trades) 50); [lia|].
    now apply select_length.
Qed.

Lemma sampled_trades_rows_witness :
  List.length (App.sampled_trades (fun _ size => seq 1 size) fifty_one) = 50.
Proof.
  destruct (sampled_trades_rows (fun _ size => seq 1 size) fifty_one)
    as (_ & _ & _ & Hdrawn).
  rewrite Hdrawn; [reflexivity|simpl; lia|].
  apply Forall_forall. intros i Hi. apply in_seq in Hi.
  change (List.length fifty_one) with 51. lia.
Defined.


(* ================================================================= *)
(** ** The strategies, from the text of the trade types *)

Lemma lstrip_lead (s : string) :
  exists lead, s = lead ^^ Py.lstrip s /\ blank lead = true.
Proof.
  induction s as [|c s (lead & Hlead & Hblank)]; [now exists ""|].
  cbn [Py.lstrip]. destruct (Py.is_space c) eqn:Hc.
  - exists (String c lead). cbn [append blank]. rewrite Hc, Hblank.
    split; [now rewrite <- Hlead|reflexivity].
  - now exists "".
Qed.

Lemma rstrip_trail (s : string) :
  exists trail, s = Py.rstrip s ^^ trail /\ blank trail = true.
Proof.
  induction s as [|c s (trail & Htrail & Hblank)]; [now exists ""|].
  cbn [Py.rstrip]. destruct (Py.rstrip s) as [|c' r] eqn:Hr.
  - destruct (Py.is_space c) eqn:Hc.
    + exists (String c trail). cbn [append blank] in *.
      rewrite Hc, Hblank. split; [now rewrite <- Htrail|reflexivity].
    + exists trail. cbn [append] in *. split; [now rewrite <- Htrail|assumption].
  - exists trail. cbn [append] in *. split; [now rewrite <- Htrail|assumption].
Qed.

Lemma lstrip_clean_start (s : string) (c : ascii) (rest : string) :
  Py.lstrip s = String c rest -> Py.is_space c = false.
Proof.
  induction s as [|a s IH]; [discriminate|]. cbn [Py.lstrip].
  destruct (Py.is_space a) eqn:Ha; [exact IH|].
  intros [= <- _]. exact Ha.
Qed.

Lemma append_snoc_empty (front : string) (c : ascii) :
  front ^^ String c "" <> "".
Proof. destruct front; discriminate. Qed.

Lemma rstrip_clean_end (s front : string) (c : ascii) :
  Py.rstrip s = front ^^ String c "" -> Py.is_space c = false.
Proof.
  revert front. induction s as [|a s IH]; intros front.
  - cbn [Py.rstrip]. intros E. symmetry in E. now apply append_snoc_empty in E.
  - cbn [Py.rstrip]. destruct (Py.rstrip s) as [|c' r] eqn:Hr.
    + destruct (Py.is_space a) eqn:Ha.
      * intros E. symmetry in E. now apply append_snoc_empty in E.
      * destruct front as [|f front]; cbn [append].
        -- intros [= <-]. exact Ha.
        -- intros [= _ E]. symmetry in E. now apply append_snoc_empty in E.
    + destruct front as [|f front]; cbn [append].
      * discriminate.
      * intros [= _ E]. now apply (IH front).
Qed.

Lemma strip_trimmed_of (raw : string) : trimmed_of raw (Py.strip raw).
Proof.
  unfold Py.strip.
  destruct (rstrip_trail raw) as (trail & Htrail & Hblank_trail).
  destruct (lstrip_lead (Py.rstrip raw)) as (lead & Hlead & Hblank_lead).
  exists lead, trail. split; [|split; [assumption|split; [assumption|]]].
  - rewrite <- append_assoc, <- Hlead. exact Htrail.
  - split.
    + intros c rest. apply lstrip_clean_start.
    + intros front c E. apply (rstrip_clean_end raw (lead ^^ front) c).
      rewrite Hlead at 1. rewrite E. now rewrite append_assoc.
Qed.

Lemma truthy_not_empty (s : string) : Py.truthy s = negb (String.eqb s "").
Proof. now destruct s. Qed.

Lemma labels_contributed (trades : list TradeRecord) :
  exists contributed,
    Forall2 contributes trades contributed
    /\ present contributed = labels trades.
Proof.
  unfold labels. induction trades as [|t trades (contributed & Hall & Hpresent)].
  - exists []. split; [constructor|reflexivity].
  - pose proof (strip_trimmed_of (get_trade_type t)) as Htrim.
    pose proof (truthy_not_empty (Py.strip (get_trade_type t))) as Htruthy.
    exists ((if String.eqb (Py.strip (get_trade_type t)) "" then None
             else Some (Py.strip (get_trade_type t))) :: contributed).
    split.
    + constructor; [|exact Hall].
      unfold contributes, get_trade_type in *.
      destruct (trade_type t) as [raw|].
      * now exists (Py.strip raw).
      * reflexivity.
    + cbn [map filter]. rewrite Htruthy.
      destruct (String.eqb (Py.strip (get_trade_type t)) "");
        cbn [negb present flat_map app]; fold (present contributed);
        now rewrite Hpresent.
Qed.

Lemma analysis_of_strategies_from_rows (sampled trades : list TradeRecord) :
  strategies_from_rows trades (analysis_of sampled trades).
Proof.
  destruct (labels_contributed trades) as (contributed & Hall & Hpresent).
  destruct (analysis_of_strategies sampled trades)
    as (ranked & Hcut & Hnd & Hin & Hsorted).
  exists contributed, ranked. rewrite Hpresent.
  repeat (split; [assumption|]). assumption.
Qed.

(** C9: the [strategies] of a result are the first 5 of the ranking of the
    labels that the rows contribute.  A row contributes its [trade_type]
    without the leading and trailing white space, and nothing when it has no
    [trade_type] or only white space.  In the ranking every contributed label
    stands once, a label of more rows before one of fewer, and of two labels
    of equally many rows the one that appears first in the input before the
    other; in both implementations. *)
Theorem analyze_trades_strategies (choice : nat -> nat -> list nat)
    (trades : list TradeRecord) :
  strategies_from_rows trades (App.analyze_trades choice trades)
  /\ strategies_from_rows trades (Fn.analyze_trades trades).
Proof.
  rewrite App_analyze_trades_shape, Fn_analyze_trades_shape.
  split; apply analysis_of_strategies_from_rows.
Qed.

Lemma blank_append (a b : string) : blank (a ^^ b) = blank a && blank b.
Proof.
  induction a as [|c a IH]; [reflexivity|]. cbn [append blank].
  rewrite IH. now rewrite andb_assoc.
Qed.

Lemma last_char (s : string) :
  s <> "" -> exists front c, s = front ^^ String c "".
Proof.
  induction s as [|a s IH]; [contradiction|]. intros _.
  destruct s as [|b s].
  - now exists "", a.
  - destruct IH as (front & c & Hs); [discriminate|].
    exists (String a front), c. cbn [append]. now rewrite <- Hs.
Qed.

Lemma blank_not_clean (s : string) :
  blank s = true ->
  (forall front c, s = front ^^ String c "" -> Py.is_space c = false) ->
  s = "".
Proof.
  intros Hblank Hclean. destruct s as [|a s]; [reflexivity|].
  destruct (last_char (String a s)) as (front & c & Hs); [discriminate|].
  pose proof (Hclean front c Hs) as Hc.
  rewrite Hs, blank_append in Hblank. cbn [blank] in Hblank.
  rewrite Hc in Hblank. now rewrite andb_false_r in Hblank.
Qed.

Lemma trimmed_core_unique (a b t1 t2 : string) :
  a ^^ t1 = b ^^ t2 -> blank t1 = true -> blank t2 = true ->
  (forall front c, a = front ^^ String c "" -> Py.is_space c = false) ->
  (forall front c, b = front ^^ String c "" -> Py.is_space c = false) ->
  a = b.
Proof.
  revert b. induction a as [|x a IH]; intros b E Ht1 Ht2 Ha Hb.
  - cbn [append] in E. symmetry. apply blank_not_clean; [|exact Hb].
    rewrite E, blank_append in Ht1. now apply andb_true_iff in Ht1.
  - destruct b as [|y b].
    + cbn [append] in E. apply blank_not_clean; [|exact Ha].
      rewrite <- E in Ht2.
      change (String x (a ^^ t1)) with (String x a ^^ t1) in Ht2.
      rewrite blank_append in Ht2. now apply andb_true_iff in Ht2.
    + cbn [append] in E. injection E as -> E. f_equal.
      apply IH; try assumption.
      * intros front c ->. now apply (Ha (String y front) c).
      * intros front c ->. now apply (Hb (String y front) c).
Qed.

Lemma blank_core_empty (lead core trail : string) :
  blank (lead ^^ core ^^ trail) = true -> clean_ends core -> core = "".
Proof.
  intros Hblank [_ Hend]. apply blank_not_clean; [|exact Hend].
  rewrite !blank_append in Hblank.
  apply andb_true_iff in Hblank. destruct Hblank as [_ Hblank].
  now apply andb_true_iff in Hblank.
Qed.

(** The trimmed form of a text is determined by the text. *)
Lemma trimmed_of_unique (raw a b : string) :
  trimmed_of raw a -> trimmed_of raw b -> a = b.
Proof.
  intros (l1 & t1 & E1 & Hl1 & Ht1 & Ha) (l2 & t2 & E2 & Hl2 & Ht2 & Hb).
  rewrite E1 in E2. clear E1 raw.
  revert l2 E2 Hl2. induction l1 as [|c l1 IH]; intros l2 E Hl2.
  - destruct l2 as [|c' l2]; cbn [append] in E.
    + destruct Ha as [_ Ha], Hb as [_ Hb]. now apply (trimmed_core_unique a b t1 t2).
    + cbn [blank] in Hl2. apply andb_true_iff in Hl2. destruct Hl2 as [Hc' Hl2].
      destruct a as [|x a].
      * cbn [append] in E. symmetry.
        apply (blank_core_empty l2 b t2); [|exact Hb].
        rewrite E in Ht1. cbn [blank] in Ht1.
        now apply andb_true_iff in Ht1.
      * cbn [append] in E. injection E as -> _.
        destruct Ha as [Ha _]. rewrite (Ha c' a eq_refl) in Hc'. discriminate.
  - cbn [blank] in Hl1. apply andb_true_iff in Hl1. destruct Hl1 as [Hc Hl1].
    destruct l2 as [|c' l2]; cbn [append] in E.
    + destruct b as [|y b].
      * cbn [append] in E.
        apply (blank_core_empty l1 a t1); [|exact Ha].
        rewrite <- E in Ht2. cbn [blank] in Ht2.
        now apply andb_true_iff in Ht2.
      * cbn [append] in E. injection E as <- _.
        destruct Hb as [Hb _]. rewrite (Hb c b eq_refl) in Hc. discriminate.
    + injection E as _ E. cbn [blank] in Hl2.
      apply andb_true_iff in Hl2. now apply (IH Hl1 l2).
Qed.
